(** * jj-mob: the to-do record lifecycle of the mobile client

    A shallow embedding of the two screens of the application
    ([AddEditScreen] and [HomeScreen]) and of the [SearchBar] component,
    together with a model of the TodoStore contract the client talks to.

    Conventions.
    - A JavaScript string is the list of its UTF-16 code units.
    - A component is its [useState] cells gathered in a record; a handler
      is a function on that record which also returns the effects it
      performed (alerts, console output, navigation, network requests).
    - An [async] handler is cut at its [await fetch(..)]: the part before
      issues the request, the part after is resumed with the outcome of
      the request and the state the component has at that moment. *)

From stdpp Require Import base option list strings gmap.
From Stdlib Require Import ZArith NArith Ascii Lia.

Local Open Scope Z_scope.

(* ===================================================================== *)
(** ** JavaScript values used by the screens *)
(* ===================================================================== *)

Module JS.

(** UTF-16 code units and strings. *)
Abbreviation code_unit := N (only parsing).
Abbreviation jsstring := (list N) (only parsing).

(** A source literal made of ASCII characters, as code units. *)
Fixpoint lit (s : string) : jsstring :=
  match s with
  | EmptyString => []
  | String a s' => N_of_ascii a :: lit s'
  end.

(** ECMAScript WhiteSpace and LineTerminator code points, the characters
    removed by [String.prototype.trim]. *)
Definition isWhiteSpace (c : code_unit) : bool :=
  ((9 <=? c) && (c <=? 13))%N          (* TAB LF VT FF CR *)
  || (c =? 32)%N                       (* SPACE *)
  || (c =? 160)%N                      (* NO-BREAK SPACE *)
  || (c =? 5760)%N                     (* U+1680 *)
  || ((8192 <=? c) && (c <=? 8202))%N  (* U+2000 .. U+200A *)
  || (c =? 8232)%N || (c =? 8233)%N    (* U+2028, U+2029 *)
  || (c =? 8239)%N                     (* U+202F *)
  || (c =? 8287)%N                     (* U+205F *)
  || (c =? 12288)%N                    (* U+3000 *)
  || (c =? 65279)%N.                   (* U+FEFF *)

Fixpoint trimStart (s : jsstring) : jsstring :=
  match s with
  | [] => []
  | c :: s' => if isWhiteSpace c then trimStart s' else s
  end.

Definition trimEnd (s : jsstring) : jsstring :=
  reverse (trimStart (reverse s)).

(** [s.trim()] *)
Definition trim (s : jsstring) : jsstring := trimEnd (trimStart s).

(** Truthiness of a string: only the empty string is falsy. *)
Definition truthy (s : jsstring) : bool :=
  match s with [] => false | _ :: _ => true end.

(** [Date] objects: a time value in milliseconds, or the invalid date
    (time value NaN). *)
Inductive Date :=
| ValidDate (ms : Z)
| InvalidDate.

(** Exceptions raised by the built-ins the screens call. *)
Inductive Exn :=
| RangeError
| URIError.

(** The JSON documents the client sends: an object literal is the list of
    its properties in source order. *)
Inductive json :=
| JNull
| JBool (b : bool)
| JString (s : jsstring).

Abbreviation jobject := (list (string * json)) (only parsing).

(** [s || null] and [d ? f(d) : null] produce a string or [null]. *)
Definition json_of_nullable (o : option jsstring) : json :=
  match o with
  | Some s => JString s
  | None => JNull
  end.

End JS.
Import JS.


(** The built-ins of the host whose results the screens only pass on.
    [encodeURIComponent] fails (URIError) on a lone surrogate. *)
Class Platform := {
  iso8601 : Z -> jsstring;
  encodeURIComponent : jsstring -> option jsstring;
  parseDate : jsstring -> Date
}.

(** [d.toISOString()]: RangeError on the invalid date. *)
Definition toISOString `{Platform} (d : Date) : Exn + jsstring :=
  match d with
  | ValidDate ms => inr (iso8601 ms)
  | InvalidDate => inl RangeError
  end.

(* ===================================================================== *)
(** ** The record and the HTTP vocabulary *)
(* ===================================================================== *)

Module Todo.

(** [interface TodoItem] *)
Record TodoItem := {
  id : jsstring;
  title : jsstring;
  description : option jsstring;
  dueDate : option jsstring;
  isImportant : bool;
  isCompleted : bool;
  createdAt : jsstring
}.

(** [{ ...t, isCompleted: b }] *)
Definition with_isCompleted (b : bool) (t : TodoItem) : TodoItem :=
  {| id := id t; title := title t; description := description t;
     dueDate := dueDate t; isImportant := isImportant t;
     isCompleted := b; createdAt := createdAt t |}.

End Todo.
Abbreviation TodoItem := Todo.TodoItem.

Module Http.

Inductive Method := GET | POST | PUT.

Record Request := {
  method : Method;
  url : jsstring;
  headers : list (string * string);
  body : option jobject
}.

(** What [await fetch(..)] followed by [await response.json()] yields:
    the promise of [fetch] rejects (the backend cannot be reached), or a
    response arrives with a status and a body; [data] is [None] when the
    body is not JSON, in which case [response.json()] rejects. *)
Inductive FetchOutcome (A : Type) :=
| Rejected
| Response (status : Z) (data : option A).
Arguments Rejected {A}.
Arguments Response {A} status data.

(** [response.ok] *)
Definition ok (status : Z) : bool := (200 <=? status) && (status <=? 299).

Definition API_URL : jsstring := lit "http://localhost:3000/api/todos".

Definition json_headers : list (string * string) :=
  [("Content-Type", "application/json")]%string.

(** [fetch(url)] without options. *)
Definition get (u : jsstring) : Request :=
  {| method := GET; url := u; headers := []; body := None |}.

End Http.
Import Http.

(** What a handler does besides updating the state of its component. *)
Inductive Effect :=
| Alert (heading message : string)
| ConsoleError (label : string)
| Fetch (req : Request)
| GoBack
| SetOptions (heading : string)
| Navigate (screen : string) (param : option jsstring).

Definition requests (out : list Effect) : list Request :=
  omap (fun e => match e with Fetch r => Some r | _ => None end) out.

Definition alerts (out : list Effect) : list (string * string) :=
  omap (fun e => match e with Alert h m => Some (h, m) | _ => None end) out.

(** How the synchronous part of a handler ends: it returns, an exception
    escapes it, or it is suspended at [await fetch(req)]. *)
Inductive Outcome (S : Type) :=
| Done (s : S) (out : list Effect)
| Threw (e : Exn) (s : S) (out : list Effect)
| Await (req : Request) (s : S) (out : list Effect).
Arguments Done {S} s out.
Arguments Threw {S} e s out.
Arguments Await {S} req s out.

Definition state_of {S : Type} (o : Outcome S) : S :=
  match o with
  | Done s _ | Threw _ s _ | Await _ s _ => s
  end.

Definition effects_of {S : Type} (o : Outcome S) : list Effect :=
  match o with
  | Done _ out | Threw _ _ out => out
  | Await req _ out => out ++ [Fetch req]
  end.

(** [e] happens, then the handler runs. *)
Definition before {S : Type} (e : Effect) (o : Outcome S) : Outcome S :=
  match o with
  | Done s out => Done s (e :: out)
  | Threw x s out => Threw x s (e :: out)
  | Await req s out => Await req s (e :: out)
  end.

(* ===================================================================== *)
(** ** AddEditScreen *)
(* ===================================================================== *)

Module AddEditScreen.

(** The [useState] cells of the screen. *)
Record State := {
  title : jsstring;
  description : jsstring;
  dueDate : option Date;
  isImportant : bool;
  loading : bool;
  isSaving : bool
}.

Definition initial : State :=
  {| title := []; description := []; dueDate := None;
     isImportant := false; loading := true; isSaving := false |}.

Definition setLoading (b : bool) (st : State) : State :=
  {| title := title st; description := description st; dueDate := dueDate st;
     isImportant := isImportant st; loading := b; isSaving := isSaving st |}.

Definition setIsSaving (b : bool) (st : State) : State :=
  {| title := title st; description := description st; dueDate := dueDate st;
     isImportant := isImportant st; loading := loading st; isSaving := b |}.

(** [const isEditing = !!todoId], with [todoId = route.params?.id]. *)
Definition isEditing (todoId : option jsstring) : bool :=
  match todoId with
  | Some i => truthy i
  | None => false
  end.

(** [`${API_URL}/${id}`] *)
Definition item_url (i : jsstring) : jsstring := API_URL ++ lit "/" ++ i.

Section Handlers.
Context `{Platform}.
Variable todoId : option jsstring.

(** The four setters run by [fetchTodoDetails] on the fetched item. *)
Definition load (data : TodoItem) (st : State) : State :=
  {| title := Todo.title data;
     description := match Todo.description data with
                    | Some d => if truthy d then d else []
                    | None => []
                    end;
     dueDate := match Todo.dueDate data with
                | Some d => if truthy d then Some (parseDate d) else None
                | None => None
                end;
     isImportant := Todo.isImportant data;
     loading := loading st;
     isSaving := isSaving st |}.

Definition fetchTodoDetails_begin (i : jsstring) (st : State) : Outcome State :=
  Await (get (item_url i)) st [].

Definition fetchTodoDetails_resume (o : FetchOutcome TodoItem) (st : State)
  : State * list Effect :=
  match o with
  | Response status (Some data) =>
      if ok status then (setLoading false (load data st), [])
      else (setLoading false st,
            [Alert "Hata" "Görev detayları yüklenirken hata oluştu."; GoBack])
  | _ => (setLoading false st,
          [Alert "Hata" "Görev detayları yüklenirken hata oluştu."; GoBack])
  end.

(** The effect run when the screen is mounted. *)
Definition mount (st : State) : Outcome State :=
  match todoId with
  | Some i =>
      if truthy i then
        before (SetOptions "Görevi Düzenle") (fetchTodoDetails_begin i st)
      else Done (setLoading false st) [SetOptions "Yeni Görev Ekle"]
  | None => Done (setLoading false st) [SetOptions "Yeni Görev Ekle"]
  end.

(** The object literal [payload] of [handleSave]. *)
Definition payload (st : State) : Exn + jobject :=
  let t := trim (title st) in
  let d := trim (description st) in
  let d := if truthy d then Some d else None in
  match dueDate st with
  | Some date =>
      match toISOString date with
      | inr iso =>
          inr [("title", JString t); ("description", json_of_nullable d);
               ("dueDate", JString iso); ("isImportant", JBool (isImportant st))]%string
      | inl e => inl e
      end
  | None =>
      inr [("title", JString t); ("description", json_of_nullable d);
           ("dueDate", JNull); ("isImportant", JBool (isImportant st))]%string
  end.

(** [handleSave] up to [await fetch(url, ..)].  The payload is built
    before the [try] block, so an exception raised there escapes. *)
Definition handleSave_begin (st : State) : Outcome State :=
  if negb (truthy (trim (title st))) then
    Done st [Alert "Uyarı" "Görev başlığı boş bırakılamaz."]
  else
    let st1 := setIsSaving true st in
    let m := if isEditing todoId then PUT else POST in
    let u := match todoId with
             | Some i => if truthy i then item_url i else API_URL
             | None => API_URL
             end in
    match payload st with
    | inl e => Threw e st1 []
    | inr p =>
        Await {| method := m; url := u; headers := json_headers; body := Some p |}
              st1 []
    end.

(** [handleSave] from the settlement of the request to its end.  The body
    of the response is not read. *)
Definition handleSave_resume {A : Type} (o : FetchOutcome A) (st : State)
  : State * list Effect :=
  match o with
  | Response status _ =>
      if ok status then
        (setIsSaving false st,
         [Alert "Başarılı"
                (if isEditing todoId then "Görev başarıyla güncellendi."
                 else "Yeni görev eklendi.");
          GoBack])
      else
        (setIsSaving false st,
         [ConsoleError "";
          Alert "Hata" "Kaydetme işlemi sırasında bir hata oluştu."])
  | Rejected =>
      (setIsSaving false st,
       [ConsoleError "";
        Alert "Hata" "Kaydetme işlemi sırasında bir hata oluştu."])
  end.

(** A whole run of [handleSave] when nothing else happens in between:
    [net] is the outcome of the request, if one is made. *)
Definition handleSave {A : Type} (net : Request -> FetchOutcome A) (st : State)
  : Outcome State :=
  match handleSave_begin st with
  | Await req st1 out =>
      let '(st2, out2) := handleSave_resume (net req) st1 in
      Done st2 (out ++ Fetch req :: out2)
  | o => o
  end.

End Handlers.

End AddEditScreen.

(* ===================================================================== *)
(** ** HomeScreen *)
(* ===================================================================== *)

Module HomeScreen.

(** A handler suspended at its [await fetch(..)], with the variables its
    continuation has captured. *)
Inductive Pending :=
| PendingTodos
| PendingToggle (item : TodoItem) (newStatus : bool).

(** The [useState] cells, the value of [useIsFocused()], and the requests
    in flight, oldest first. *)
Record State := {
  todos : list TodoItem;
  loading : bool;
  searchQuery : jsstring;
  isFocused : bool;
  inflight : list Pending
}.

Definition setTodos (l : list TodoItem) (st : State) : State :=
  {| todos := l; loading := loading st; searchQuery := searchQuery st;
     isFocused := isFocused st; inflight := inflight st |}.

Definition setLoading (b : bool) (st : State) : State :=
  {| todos := todos st; loading := b; searchQuery := searchQuery st;
     isFocused := isFocused st; inflight := inflight st |}.

Definition setSearchQuery (q : jsstring) (st : State) : State :=
  {| todos := todos st; loading := loading st; searchQuery := q;
     isFocused := isFocused st; inflight := inflight st |}.

Definition setIsFocused (b : bool) (st : State) : State :=
  {| todos := todos st; loading := loading st; searchQuery := searchQuery st;
     isFocused := b; inflight := inflight st |}.

Definition setInflight (l : list Pending) (st : State) : State :=
  {| todos := todos st; loading := loading st; searchQuery := searchQuery st;
     isFocused := isFocused st; inflight := l |}.

Definition suspend (p : Pending) (st : State) : State :=
  setInflight (inflight st ++ [p]) st.

Definition initial (focused : bool) : State :=
  {| todos := []; loading := true; searchQuery := []; isFocused := focused;
     inflight := [] |}.

Definition fetch_failed : list Effect :=
  [ConsoleError "Error fetching todos:";
   Alert "Hata" "Görevler yüklenirken bir sorun oluştu."].

Definition toggle_failed : list Effect :=
  [ConsoleError "Error updating todo:";
   Alert "Hata" "Görevin durumu güncellenemedi."].

Section Handlers.
Context `{Platform}.

(** [`${API_URL}${query ? `?search=${encodeURIComponent(query)}` : ''}`] *)
Definition list_url (query : jsstring) : Exn + jsstring :=
  if truthy query then
    match encodeURIComponent query with
    | Some e => inr (API_URL ++ lit "?search=" ++ e)
    | None => inl URIError
    end
  else inr API_URL.

(** [fetchTodos(query)] up to [await fetch(url)]. *)
Definition fetchTodos_begin (query : jsstring) (st : State) : State * list Effect :=
  let st1 := setLoading true st in
  match list_url query with
  | inr u => (suspend PendingTodos st1, [Fetch (get u)])
  | inl _ => (setLoading false st1, fetch_failed)
  end.

(** [fetchTodos] from the settlement of its request to its end. *)
Definition fetchTodos_resume (o : FetchOutcome (list TodoItem)) (st : State)
  : State * list Effect :=
  match o with
  | Response status (Some data) =>
      if ok status then (setLoading false (setTodos data st), [])
      else (setLoading false st, fetch_failed)
  | _ => (setLoading false st, fetch_failed)
  end.

(** The effect with dependencies [isFocused, searchQuery, fetchTodos]. *)
Definition refresh (st : State) : State * list Effect :=
  if isFocused st then fetchTodos_begin (searchQuery st) st else (st, []).

(** [handleSearch]: a state update to the value already held is dropped,
    otherwise the component renders again and the effect above runs. *)
Definition handleSearch (query : jsstring) (st : State) : State * list Effect :=
  if decide (query = searchQuery st) then (st, [])
  else refresh (setSearchQuery query st).

Definition focusChanged (b : bool) (st : State) : State * list Effect :=
  if decide (b = isFocused st) then (st, [])
  else refresh (setIsFocused b st).

(** [handleToggleCompletion(item)] up to [await fetch(..)]. *)
Definition handleToggleCompletion_begin (item : TodoItem) (st : State)
  : State * list Effect :=
  let newStatus := negb (Todo.isCompleted item) in
  (suspend (PendingToggle item newStatus) st,
   [Fetch {| method := PUT;
             url := API_URL ++ lit "/" ++ Todo.id item;
             headers := json_headers;
             body := Some [("isCompleted", JBool newStatus)]%string |}]).

(** [prev.map(t => t.id === item.id ? { ...t, isCompleted: newStatus } : t)] *)
Definition mark (item : TodoItem) (newStatus : bool) (prev : list TodoItem)
  : list TodoItem :=
  map (fun t => if decide (Todo.id t = Todo.id item)
                then Todo.with_isCompleted newStatus t else t) prev.

(** [handleToggleCompletion] from the settlement of its request on. *)
Definition handleToggleCompletion_resume {A : Type} (item : TodoItem)
  (newStatus : bool) (o : FetchOutcome A) (st : State) : State * list Effect :=
  match o with
  | Response status _ =>
      if ok status then (setTodos (mark item newStatus (todos st)) st, [])
      else (st, toggle_failed)
  | Rejected => (st, toggle_failed)
  end.

Definition handleNavigateToEdit (i : jsstring) : list Effect :=
  [Navigate "AddEdit" (Some i)].

Definition handleNavigateToAdd : list Effect :=
  [Navigate "AddEdit" None].

(** What can happen to the mounted screen. *)
Inductive Event :=
| FocusChanged (b : bool)
| OnSearch (query : jsstring)
| OnToggle (item : TodoItem)
| OnPress (i : jsstring)
| OnAdd
| TodosSettled (n : nat) (o : FetchOutcome (list TodoItem))
| ToggleSettled (n : nat) (o : FetchOutcome TodoItem).

(** One event.  Settling a request that is not in flight does nothing. *)
Definition step (ev : Event) (st : State) : State * list Effect :=
  match ev with
  | FocusChanged b => focusChanged b st
  | OnSearch q => handleSearch q st
  | OnToggle item => handleToggleCompletion_begin item st
  | OnPress i => (st, handleNavigateToEdit i)
  | OnAdd => (st, handleNavigateToAdd)
  | TodosSettled n o =>
      match inflight st !! n with
      | Some PendingTodos =>
          fetchTodos_resume o (setInflight (delete n (inflight st)) st)
      | _ => (st, [])
      end
  | ToggleSettled n o =>
      match inflight st !! n with
      | Some (PendingToggle item newStatus) =>
          handleToggleCompletion_resume item newStatus o
            (setInflight (delete n (inflight st)) st)
      | _ => (st, [])
      end
  end.

Fixpoint run (evs : list Event) (st : State) : State * list Effect :=
  match evs with
  | [] => (st, [])
  | ev :: evs' =>
      let '(st1, out1) := step ev st in
      let '(st2, out2) := run evs' st1 in
      (st2, out1 ++ out2)
  end.

(** Mounting runs the effect once. *)
Definition mount (focused : bool) : State * list Effect :=
  refresh (initial focused).

End Handlers.

End HomeScreen.

(* ===================================================================== *)
(** ** SearchBar *)
(* ===================================================================== *)

Module SearchBar.

(** A callback registered by [setTimeout(() => onSearch(query), 300)]:
    the earliest time at which it may run and the [query] it captured. *)
Record Timer := {
  due : Z;
  captured : jsstring
}.

(** The [useState] cell, the timer the cleanup of the last effect run
    will clear, the timers the host still holds, and a clock in
    milliseconds. *)
Record State := {
  now : Z;
  query : jsstring;
  cleanup : option nat;
  timers : gmap nat Timer;
  next_id : nat
}.

(** One run of the effect with dependencies [query, onSearch]: the cleanup
    of the previous run, then a new timer. *)
Definition effect (q : jsstring) (st : State) : State :=
  let cleared := match cleanup st with
                 | Some i => delete i (timers st)
                 | None => timers st
                 end in
  {| now := now st;
     query := q;
     cleanup := Some (next_id st);
     timers := <[next_id st := {| due := now st + 300; captured := q |}]> cleared;
     next_id := S (next_id st) |}.

Definition mount (t0 : Z) : State :=
  effect [] {| now := t0; query := []; cleanup := None; timers := ∅; next_id := 0 |}.

Inductive Event :=
| Elapse (ms : N)
| ChangeText (q : jsstring)
| ParentRendered
| TimerFires (i : nat).

(** One event, with the calls of [onSearch] it causes.  A timer runs only
    at or after its due time, and once. *)
Definition step (ev : Event) (st : State) : State * list jsstring :=
  match ev with
  | Elapse ms =>
      ({| now := now st + Z.of_N ms; query := query st; cleanup := cleanup st;
          timers := timers st; next_id := next_id st |}, [])
  | ChangeText q =>
      if decide (q = query st) then (st, []) else (effect q st, [])
  | ParentRendered => (effect (query st) st, [])
  | TimerFires i =>
      match timers st !! i with
      | Some t =>
          if due t <=? now st then
            ({| now := now st; query := query st; cleanup := cleanup st;
                timers := delete i (timers st); next_id := next_id st |},
             [captured t])
          else (st, [])
      | None => (st, [])
      end
  end.

Fixpoint run (evs : list Event) (st : State) : State :=
  match evs with
  | [] => st
  | ev :: evs' => run evs' (fst (step ev st))
  end.

(** The time of the last edit of the text among [evs], started at time
    [t] with text [text]; [last] when there is none. *)
Fixpoint last_edit (evs : list Event) (t : Z) (text : jsstring) (last : Z) : Z :=
  match evs with
  | [] => last
  | Elapse ms :: evs' => last_edit evs' (t + Z.of_N ms) text last
  | ChangeText q :: evs' =>
      if decide (q = text) then last_edit evs' t text last
      else last_edit evs' t q t
  | _ :: evs' => last_edit evs' t text last
  end.

End SearchBar.

(* ===================================================================== *)
(** ** The TodoStore contract *)
(* ===================================================================== *)

Module TodoStore.

(** Modelled from the spec: the error taxonomy of the backend, which is an
    external service and has no source in the repository (section 7:
    ValidationError for an empty title, NotFound for an unknown id). *)
Inductive Error :=
| ValidationError
| NotFound.

(** Modelled from the spec: the fields supplied to Update, any subset of
    title, description, dueDate, isImportant and isCompleted (section
    4.1).  A supplied description or dueDate may be null, which makes the
    field absent on the record. *)
Record Partial := {
  p_title : option jsstring;
  p_description : option (option jsstring);
  p_dueDate : option (option jsstring);
  p_isImportant : option bool;
  p_isCompleted : option bool
}.

(** Modelled from the spec: the empty subset of the fields, an Update
    that supplies nothing (section 4.1). *)
Definition nothing : Partial :=
  {| p_title := None; p_description := None; p_dueDate := None;
     p_isImportant := None; p_isCompleted := None |}.

(** Modelled from the spec: how one property of a PUT body is read
    (section 6).  A property outside the five fields, or of another JSON
    type than the data model gives the field, is outside the contract. *)
Definition read_property (kv : string * json) (p : Partial) : option Partial :=
  let '(k, v) := kv in
  if String.eqb k "title" then
    match v with
    | JString s =>
        Some {| p_title := Some s; p_description := p_description p;
                p_dueDate := p_dueDate p; p_isImportant := p_isImportant p;
                p_isCompleted := p_isCompleted p |}
    | _ => None
    end
  else if String.eqb k "description" then
    match v with
    | JString s =>
        Some {| p_title := p_title p; p_description := Some (Some s);
                p_dueDate := p_dueDate p; p_isImportant := p_isImportant p;
                p_isCompleted := p_isCompleted p |}
    | JNull =>
        Some {| p_title := p_title p; p_description := Some None;
                p_dueDate := p_dueDate p; p_isImportant := p_isImportant p;
                p_isCompleted := p_isCompleted p |}
    | _ => None
    end
  else if String.eqb k "dueDate" then
    match v with
    | JString s =>
        Some {| p_title := p_title p; p_description := p_description p;
                p_dueDate := Some (Some s); p_isImportant := p_isImportant p;
                p_isCompleted := p_isCompleted p |}
    | JNull =>
        Some {| p_title := p_title p; p_description := p_description p;
                p_dueDate := Some None; p_isImportant := p_isImportant p;
                p_isCompleted := p_isCompleted p |}
    | _ => None
    end
  else if String.eqb k "isImportant" then
    match v with
    | JBool b =>
        Some {| p_title := p_title p; p_description := p_description p;
                p_dueDate := p_dueDate p; p_isImportant := Some b;
                p_isCompleted := p_isCompleted p |}
    | _ => None
    end
  else if String.eqb k "isCompleted" then
    match v with
    | JBool b =>
        Some {| p_title := p_title p; p_description := p_description p;
                p_dueDate := p_dueDate p; p_isImportant := p_isImportant p;
                p_isCompleted := Some b |}
    | _ => None
    end
  else None.

(** Modelled from the spec: the body of [PUT /todos/{id}] read as the
    fields it supplies, property by property in order. *)
Fixpoint partial_of_body (o : jobject) (p : Partial) : option Partial :=
  match o with
  | [] => Some p
  | kv :: o' =>
      match read_property kv p with
      | Some p' => partial_of_body o' p'
      | None => None
      end
  end.

(** Modelled from the spec: Update "applies only the provided fields"; a
    provided title is stored trimmed (section 3). *)
Definition apply_fields (p : Partial) (t : TodoItem) : TodoItem :=
  {| Todo.id := Todo.id t;
     Todo.title := match p_title p with
                   | Some s => trim s
                   | None => Todo.title t
                   end;
     Todo.description := default (Todo.description t) (p_description p);
     Todo.dueDate := default (Todo.dueDate t) (p_dueDate p);
     Todo.isImportant := default (Todo.isImportant t) (p_isImportant p);
     Todo.isCompleted := default (Todo.isCompleted t) (p_isCompleted p);
     Todo.createdAt := Todo.createdAt t |}.

(** Modelled from the spec: Get "fails with NotFound when no item has that
    id" (section 4.1).  The store is the finite map from ids to records. *)
Definition Get (i : jsstring) (store : gmap (list N) TodoItem)
  : Error + TodoItem :=
  match store !! i with
  | Some t => inr t
  | None => inl NotFound
  end.

(** Modelled from the spec: Create "fails with ValidationError when title
    trims to empty.  Assigns id and createdAt; defaults isCompleted=false,
    isImportant=false if absent" (section 4.1).  [newId] and [stamp] are
    the id and the creation time the server picks. *)
Definition Create (newId stamp : jsstring) (title : jsstring)
  (description dueDate : option jsstring) (isImportant : option bool)
  (store : gmap (list N) TodoItem)
  : (Error + TodoItem) * gmap (list N) TodoItem :=
  if truthy (trim title) then
    let t := {| Todo.id := newId; Todo.title := trim title;
                Todo.description := description; Todo.dueDate := dueDate;
                Todo.isImportant := default false isImportant;
                Todo.isCompleted := false; Todo.createdAt := stamp |} in
    (inr t, <[newId := t]> store)
  else (inl ValidationError, store).

(** Modelled from the spec: Update "applies only the provided fields;
    fails with NotFound if id absent; fails with ValidationError if an
    explicitly provided title trims to empty" (section 4.1).  Section 8
    states the ValidationError property for all blank titles, with no
    condition on the id, so the title is checked first. *)
Definition Update (i : jsstring) (p : Partial) (store : gmap (list N) TodoItem)
  : (Error + TodoItem) * gmap (list N) TodoItem :=
  let blank := match p_title p with
               | Some s => negb (truthy (trim s))
               | None => false
               end in
  if blank then (inl ValidationError, store)
  else
    match store !! i with
    | Some t => let t' := apply_fields p t in (inr t', <[i := t']> store)
    | None => (inl NotFound, store)
    end.

(** Modelled from the spec: [POST /todos] with body
    [{title, description?, dueDate?, isImportant?}] is Create on the fields
    of the body, and [PUT /todos/{id}] is Update on them (section 6).
    [None] stands for a request outside the contract. *)
Definition post (newId stamp : jsstring) (o : jobject)
  (store : gmap (list N) TodoItem)
  : option ((Error + TodoItem) * gmap (list N) TodoItem) :=
  match partial_of_body o nothing with
  | Some p =>
      match p_title p, p_isCompleted p with
      | Some t, None =>
          Some (Create newId stamp t (mjoin (p_description p))
                  (mjoin (p_dueDate p)) (p_isImportant p) store)
      | _, _ => None
      end
  | None => None
  end.

(** Modelled from the spec: [PUT /todos/{id}] with a body that is a subset
    of the five fields is Update on the fields of the body (section 6);
    [None] stands for a request outside the contract. *)
Definition put (i : jsstring) (o : jobject) (store : gmap (list N) TodoItem)
  : option ((Error + TodoItem) * gmap (list N) TodoItem) :=
  match partial_of_body o nothing with
  | Some p => Some (Update i p store)
  | None => None
  end.

End TodoStore.

(** The value of a property of an object literal. *)
Definition field (k : string) (o : jobject) : option json :=
  snd <$> find (fun kv => String.eqb (fst kv) k) o.

(** A host for the examples: every date prints as the epoch, and
    [encodeURIComponent] is the identity, as it is on letters and digits. *)
Definition sample_host : Platform :=
  {| iso8601 := fun _ => lit "1970-01-01T00:00:00.000Z";
     encodeURIComponent := fun q => Some q;
     parseDate := fun _ => ValidDate 0 |}.

Definition buy_milk : TodoItem :=
  {| Todo.id := lit "1"; Todo.title := lit "Buy milk";
     Todo.description := None; Todo.dueDate := None;
     Todo.isImportant := false; Todo.isCompleted := false;
     Todo.createdAt := lit "2024-01-01T00:00:00.000Z" |}.

Definition buy_bread : TodoItem :=
  {| Todo.id := lit "2"; Todo.title := lit "Buy bread";
     Todo.description := Some (lit "wholegrain"); Todo.dueDate := None;
     Todo.isImportant := true; Todo.isCompleted := false;
     Todo.createdAt := lit "2024-01-02T00:00:00.000Z" |}.

Definition two_items : HomeScreen.State :=
  {| HomeScreen.todos := [buy_milk; buy_bread];
     HomeScreen.loading := false;
     HomeScreen.searchQuery := [];
     HomeScreen.isFocused := true;
     HomeScreen.inflight := [] |}.

Definition blank_form : AddEditScreen.State :=
  {| AddEditScreen.title := [32; 9; 160]%N;
     AddEditScreen.description := lit "notes";
     AddEditScreen.dueDate := None;
     AddEditScreen.isImportant := true;
     AddEditScreen.loading := false;
     AddEditScreen.isSaving := false |}.

Definition padded_form : AddEditScreen.State :=
  {| AddEditScreen.title := lit "  Buy milk ";
     AddEditScreen.description := lit "   ";
     AddEditScreen.dueDate := Some (ValidDate 0);
     AddEditScreen.isImportant := true;
     AddEditScreen.loading := false;
     AddEditScreen.isSaving := false |}.

(** A call that did not succeed: the backend could not be reached, or it
    answered with a status outside 200..299. *)
Definition failed {A : Type} (o : FetchOutcome A) : bool :=
  match o with
  | Rejected => true
  | Response status _ => negb (ok status)
  end.

(** The timers of a mounted [SearchBar]: every timer the host holds is the
    one the next cleanup clears, it captured the text now in the field,
    and it is due no earlier than 300 ms after [last]. *)
Definition one_timer (last : Z) (st : SearchBar.State) : Prop :=
  forall i t,
    SearchBar.timers st !! i = Some t ->
    SearchBar.cleanup st = Some i /\
    SearchBar.captured t = SearchBar.query st /\
    last + 300 <= SearchBar.due t.

(** The user types "a", and 100 ms later "ab", then waits 300 ms. *)
Definition typing : list SearchBar.Event :=
  [SearchBar.ChangeText (lit "a"); SearchBar.Elapse 100;
   SearchBar.ChangeText (lit "ab"); SearchBar.Elapse 300].

(** The filter is set to "milk" while the first list request is still in
    flight; the answer to the second request arrives before the answer to
    the first. *)
Definition overtaken : list HomeScreen.Event :=
  [HomeScreen.OnSearch (lit "milk");
   HomeScreen.TodosSettled 1 (Response 200 (Some [buy_milk]));
   HomeScreen.TodosSettled 0 (Response 200 (Some [buy_milk; buy_bread]))].

(* ===================================================================== *)
(** ** DatePickerComponent and the rendering of the list screen *)
(* ===================================================================== *)

Module DatePickerComponent.

(** The [useState] cell [showPicker] and the [date] of the parent, which
    [setDate] writes. *)
Record State := {
  showPicker : bool;
  date : option Date
}.

Definition setShowPicker (b : bool) (st : State) : State :=
  {| showPicker := b; date := date st |}.

Definition setDate (d : option Date) (st : State) : State :=
  {| showPicker := showPicker st; date := d |}.

(** [onChange(event, selectedDate)]: [os] is [Platform.OS], [type] is
    [event.type], and [selectedDate] is [None] when it is undefined. *)
Definition onChange (os type : string) (selectedDate : option Date) (st : State)
  : State :=
  let st1 := setShowPicker (String.eqb os "ios") st in
  if bool_decide (is_Some selectedDate) then setDate selectedDate st1
  else if String.eqb type "dismissed" && String.eqb os "android" then st1
  else if String.eqb type "set" && bool_decide (is_Some selectedDate)
       then setDate selectedDate st1
  else st1.

Inductive Event :=
| Press
| Change (type : string) (selectedDate : option Date).

Definition step (os : string) (ev : Event) (st : State) : State :=
  match ev with
  | Press => setShowPicker true st
  | Change type selectedDate => onChange os type selectedDate st
  end.

Definition run (os : string) (evs : list Event) (st : State) : State :=
  foldl (fun s ev => step os ev s) st evs.

(** The date handed over by the last event of [evs] that carried one. *)
Fixpoint last_selected (evs : list Event) (acc : option Date) : option Date :=
  match evs with
  | [] => acc
  | Change _ (Some d) :: evs' => last_selected evs' (Some d)
  | _ :: evs' => last_selected evs' acc
  end.

End DatePickerComponent.

Module HomeView.







End HomeView.




(** The two kinds of request the list screen sends. *)
Definition list_screen_request (r : Request) : Prop :=
  (method r = GET /\ body r = None /\ API_URL `prefix_of` url r) \/
  (method r = PUT /\ exists b, body r = Some [("isCompleted", JBool b)]%string).

(** An answer from which a handler reads data: ok status and a JSON body. *)
Definition usable {A : Type} (o : FetchOutcome A) : bool :=
  match o with
  | Response status (Some _) => ok status
  | _ => false
  end.

(** A host for the examples that refuses what the sample host lets
    through: [encodeURIComponent] fails on a string with a surrogate code
    unit, and only the epoch parses as a date. *)
Definition strict_host : Platform :=
  {| iso8601 := fun _ => lit "1970-01-01T00:00:00.000Z";
     encodeURIComponent :=
       fun q => if existsb (fun c => (55296 <=? c) && (c <=? 57343))%N q
                then None else Some q;
     parseDate :=
       fun s => if decide (s = lit "1970-01-01T00:00:00.000Z")
                then ValidDate 0 else InvalidDate |}.


Definition misdated_milk : TodoItem :=
  {| Todo.id := lit "1"; Todo.title := lit "Buy milk";
     Todo.description := None; Todo.dueDate := Some (lit "tomorrow");
     Todo.isImportant := false; Todo.isCompleted := false;
     Todo.createdAt := lit "2024-01-01T00:00:00.000Z" |}.

(* ===================================================================== *)
(** ** The add/edit screen over time *)
(* ===================================================================== *)

Module AddEditSession.

(** The cells of the screen and the save requests not yet answered,
    oldest first. *)
Record Screen := {
  cells : AddEditScreen.State;
  inflight : list Request
}.

Definition setTitle (s : jsstring) (st : AddEditScreen.State) : AddEditScreen.State :=
  {| AddEditScreen.title := s;
     AddEditScreen.description := AddEditScreen.description st;
     AddEditScreen.dueDate := AddEditScreen.dueDate st;
     AddEditScreen.isImportant := AddEditScreen.isImportant st;
     AddEditScreen.loading := AddEditScreen.loading st;
     AddEditScreen.isSaving := AddEditScreen.isSaving st |}.

Definition setDescription (s : jsstring) (st : AddEditScreen.State)
  : AddEditScreen.State :=
  {| AddEditScreen.title := AddEditScreen.title st;
     AddEditScreen.description := s;
     AddEditScreen.dueDate := AddEditScreen.dueDate st;
     AddEditScreen.isImportant := AddEditScreen.isImportant st;
     AddEditScreen.loading := AddEditScreen.loading st;
     AddEditScreen.isSaving := AddEditScreen.isSaving st |}.

Definition setDueDate (d : option Date) (st : AddEditScreen.State)
  : AddEditScreen.State :=
  {| AddEditScreen.title := AddEditScreen.title st;
     AddEditScreen.description := AddEditScreen.description st;
     AddEditScreen.dueDate := d;
     AddEditScreen.isImportant := AddEditScreen.isImportant st;
     AddEditScreen.loading := AddEditScreen.loading st;
     AddEditScreen.isSaving := AddEditScreen.isSaving st |}.

Definition setIsImportant (b : bool) (st : AddEditScreen.State)
  : AddEditScreen.State :=
  {| AddEditScreen.title := AddEditScreen.title st;
     AddEditScreen.description := AddEditScreen.description st;
     AddEditScreen.dueDate := AddEditScreen.dueDate st;
     AddEditScreen.isImportant := b;
     AddEditScreen.loading := AddEditScreen.loading st;
     AddEditScreen.isSaving := AddEditScreen.isSaving st |}.

(** What the user and the network can do to the form once it is shown. *)
Inductive Event :=
| OnChangeTitle (s : jsstring)
| OnChangeDescription (s : jsstring)
| SetDate (d : option Date)
| OnValueChange (b : bool)
| OnPressSave
| SaveSettled (o : FetchOutcome TodoItem).

Section Run.
Context `{Platform}.
Variable todoId : option jsstring.

(** One event.  The save button is [disabled] while [isSaving] holds, so
    a press does nothing then; an answer settles the oldest request. *)
Definition step (ev : Event) (scr : Screen) : Screen * list Effect :=
  match ev with
  | OnChangeTitle s =>
      ({| cells := setTitle s (cells scr); inflight := inflight scr |}, [])
  | OnChangeDescription s =>
      ({| cells := setDescription s (cells scr); inflight := inflight scr |}, [])
  | SetDate d =>
      ({| cells := setDueDate d (cells scr); inflight := inflight scr |}, [])
  | OnValueChange b =>
      ({| cells := setIsImportant b (cells scr); inflight := inflight scr |}, [])
  | OnPressSave =>
      if AddEditScreen.isSaving (cells scr) then (scr, [])
      else
        match AddEditScreen.handleSave_begin todoId (cells scr) with
        | Await req s out =>
            ({| cells := s; inflight := inflight scr ++ [req] |}, out ++ [Fetch req])
        | Done s out | Threw _ s out =>
            ({| cells := s; inflight := inflight scr |}, out)
        end
  | SaveSettled o =>
      match inflight scr with
      | [] => (scr, [])
      | _ :: rest =>
          let '(s, out) := AddEditScreen.handleSave_resume todoId o (cells scr) in
          ({| cells := s; inflight := rest |}, out)
      end
  end.

Fixpoint run (evs : list Event) (scr : Screen) : Screen * list Effect :=
  match evs with
  | [] => (scr, [])
  | ev :: evs' =>
      let '(scr1, out1) := step ev scr in
      let '(scr2, out2) := run evs' scr1 in
      (scr2, out1 ++ out2)
  end.

End Run.

(** The form as it is shown for a new item. *)
Definition shown : Screen :=
  {| cells := AddEditScreen.setLoading false AddEditScreen.initial;
     inflight := [] |}.

End AddEditSession.

(** At most one save is in flight, and [isSaving] holds while it is. *)
Definition one_save (scr : AddEditSession.Screen) : Prop :=
  (length (AddEditSession.inflight scr) <= 1)%nat /\
  (AddEditSession.inflight scr <> [] ->
   AddEditScreen.isSaving (AddEditSession.cells scr) = true).

(** The user types a title and presses the save button three times. *)
Definition impatient : list AddEditSession.Event :=
  [AddEditSession.OnChangeTitle (lit "Buy milk");
   AddEditSession.OnPressSave; AddEditSession.OnPressSave;
   AddEditSession.OnPressSave].

(* ===================================================================== *)
(** ** Facts about [trim] *)
(* ===================================================================== *)

Section TrimFacts.

Lemma trimStart_head (s : jsstring) (c : N) :
  head (trimStart s) = Some c -> isWhiteSpace c = false.
Proof.
  induction s as [|a s IH]; simpl; [discriminate|].
  destruct (isWhiteSpace a) eqn:Ha; [exact IH|].
  simpl. intros [= <-]. exact Ha.
Qed.

Lemma trimStart_fixed (s : jsstring) :
  (forall c, head s = Some c -> isWhiteSpace c = false) -> trimStart s = s.
Proof.
  destruct s as [|a s]; [reflexivity|].
  intros H. simpl. rewrite (H a eq_refl). reflexivity.
Qed.

Lemma trimStart_suffix (s : jsstring) : trimStart s `suffix_of` s.
Proof.
  induction s as [|a s IH]; simpl; [done|].
  destruct (isWhiteSpace a); [|done].
  by apply suffix_cons_r.
Qed.

Lemma trimStart_nil_iff (s : jsstring) :
  trimStart s = [] <-> forallb isWhiteSpace s = true.
Proof.
  induction s as [|a s IH]; simpl; [done|].
  destruct (isWhiteSpace a); simpl; [exact IH|].
  split; discriminate.
Qed.

(** Dropping leading white space keeps the last character. *)
Lemma trimStart_last (s : jsstring) (c : N) :
  last (trimStart s) = Some c -> last s = Some c.
Proof.
  intros H. destruct (trimStart_suffix s) as [k Hk].
  rewrite Hk. destruct (trimStart s) as [|a t] eqn:E; [discriminate|].
  rewrite last_app. by rewrite H.
Qed.

Lemma trimEnd_last (s : jsstring) (c : N) :
  last (trimEnd s) = Some c -> isWhiteSpace c = false.
Proof.
  unfold trimEnd. rewrite last_reverse. apply trimStart_head.
Qed.

Lemma trimEnd_head (s : jsstring) (c : N) :
  head (trimEnd s) = Some c -> head s = Some c.
Proof.
  unfold trimEnd. rewrite head_reverse. intros H.
  apply trimStart_last in H. by rewrite last_reverse in H.
Qed.

Lemma trimEnd_fixed (s : jsstring) :
  (forall c, last s = Some c -> isWhiteSpace c = false) -> trimEnd s = s.
Proof.
  intros H. unfold trimEnd. rewrite trimStart_fixed.
  - apply reverse_involutive.
  - intros c Hc. rewrite head_reverse in Hc. by apply H.
Qed.

Lemma trim_head (s : jsstring) (c : N) :
  head (trim s) = Some c -> isWhiteSpace c = false.
Proof.
  unfold trim. intros H. apply trimEnd_head in H.
  by apply trimStart_head in H.
Qed.

Lemma trim_last (s : jsstring) (c : N) :
  last (trim s) = Some c -> isWhiteSpace c = false.
Proof. unfold trim. apply trimEnd_last. Qed.

Lemma trim_idempotent (s : jsstring) : trim (trim s) = trim s.
Proof.
  unfold trim at 1.
  rewrite (trimStart_fixed (trim s)) by apply trim_head.
  apply trimEnd_fixed, trim_last.
Qed.

Lemma forallb_reverse (f : N -> bool) (s : jsstring) :
  forallb f (reverse s) = forallb f s.
Proof.
  induction s as [|a s IH]; [reflexivity|].
  rewrite reverse_cons, forallb_app, IH. simpl.
  rewrite andb_true_r. apply andb_comm.
Qed.

Lemma trimStart_blank (s : jsstring) :
  forallb isWhiteSpace (trimStart s) = forallb isWhiteSpace s.
Proof.
  induction s as [|a s IH]; [reflexivity|]. simpl.
  destruct (isWhiteSpace a) eqn:Ha; [exact IH|].
  simpl. by rewrite Ha.
Qed.

(** A string trims to the empty string exactly when all its characters
    are white space. *)
Lemma trim_nil_iff (s : jsstring) :
  trim s = [] <-> forallb isWhiteSpace s = true.
Proof.
  unfold trim, trimEnd. split.
  - intros H. apply (f_equal reverse) in H.
    rewrite reverse_involutive, reverse_nil in H.
    apply trimStart_nil_iff in H.
    by rewrite forallb_reverse, trimStart_blank in H.
  - intros H.
    assert (E : trimStart (reverse (trimStart s)) = []).
    { apply trimStart_nil_iff. by rewrite forallb_reverse, trimStart_blank. }
    by rewrite E.
Qed.

End TrimFacts.

(* ===================================================================== *)
(** ** Shared lemmas on the handlers *)
(* ===================================================================== *)

Lemma truthy_false (s : jsstring) : truthy s = false <-> s = [].
Proof. destruct s; simpl; split; congruence. Qed.

Lemma truthy_true (s : jsstring) : truthy s = true <-> s <> [].
Proof. destruct s; simpl; split; congruence. Qed.

Lemma delete_middle {A : Type} (l k : list A) (x : A) :
  delete (length l) (l ++ x :: k) = l ++ k.
Proof. induction l as [|a l IH]; simpl; [done|]. by rewrite IH. Qed.

(** A request leaves [handleSave] only for a title that is not blank, and
    its body is the payload of the form. *)
Lemma handleSave_begin_await `{Platform} todoId st req st1 out :
  AddEditScreen.handleSave_begin todoId st = Await req st1 out ->
  trim (AddEditScreen.title st) <> [] /\
  st1 = AddEditScreen.setIsSaving true st /\ out = [] /\
  exists p, AddEditScreen.payload st = inr p /\ body req = Some p.
Proof.
  unfold AddEditScreen.handleSave_begin.
  destruct (truthy (trim (AddEditScreen.title st))) eqn:Ht; simpl; [|discriminate].
  apply truthy_true in Ht.
  destruct (AddEditScreen.payload st) as [e|p] eqn:Hp; [discriminate|].
  intros [= <- <- <-]. repeat split; eauto.
Qed.

(** The payload always has the same four properties, in source order. *)
Lemma payload_shape `{Platform} st p :
  AddEditScreen.payload st = inr p ->
  exists d due,
    p = [("title", JString (trim (AddEditScreen.title st)));
         ("description", d); ("dueDate", due);
         ("isImportant", JBool (AddEditScreen.isImportant st))]%string /\
    d = json_of_nullable
          (if truthy (trim (AddEditScreen.description st))
           then Some (trim (AddEditScreen.description st)) else None) /\
    (due = JNull \/ exists s, due = JString s).
Proof.
  unfold AddEditScreen.payload.
  destruct (AddEditScreen.dueDate st) as [date|].
  - destruct (toISOString date) as [e|iso]; [discriminate|].
    intros [= <-]. eauto 10.
  - intros [= <-]. eauto 10.
Qed.

(* ===================================================================== *)
(** ** C1: the toggle of the list screen *)
(* ===================================================================== *)

(** C1.  The toggle is not applied optimistically: when
    [handleToggleCompletion] has sent its PUT and waits for the answer,
    the list held by the screen is the list it had before, for every
    state and every item.  On the list [buy_milk; buy_bread], with the
    checkbox of the first item ticked, both items are still shown as not
    completed while the request is in flight, where an optimistic update
    would show the first one completed; it is shown completed once the
    answer is ok, and a failed call leaves the list as it was. *)
Theorem C1_toggle_not_applied_before_confirmation `{Platform} :
  (forall st item,
     HomeScreen.todos (fst (HomeScreen.step (HomeScreen.OnToggle item) st))
     = HomeScreen.todos st) /\
  (let st1 := fst (HomeScreen.step (HomeScreen.OnToggle buy_milk) two_items) in
   HomeScreen.inflight st1 = [HomeScreen.PendingToggle buy_milk true] /\
   HomeScreen.todos st1 = [buy_milk; buy_bread] /\
   Todo.isCompleted <$> HomeScreen.todos st1 = [false; false] /\
   Todo.isCompleted
     <$> HomeScreen.todos
           (fst (HomeScreen.step (HomeScreen.ToggleSettled 0 (Response 200 None)) st1))
   = [true; false] /\
   HomeScreen.todos
     (fst (HomeScreen.step (HomeScreen.ToggleSettled 0 (Response 200 None)) st1))
   = [Todo.with_isCompleted true buy_milk; buy_bread] /\
   HomeScreen.todos
     (fst (HomeScreen.step (HomeScreen.ToggleSettled 0 Rejected) st1))
   = [buy_milk; buy_bread]).
Proof.
  split.
  - intros st item. reflexivity.
  - cbv zeta. repeat split; reflexivity.
Qed.

(* ===================================================================== *)
(** ** C2: blank titles *)
(* ===================================================================== *)

(** C2.  For every title that trims to the empty string: Create fails
    with ValidationError and returns the store it was given; Update with
    that title supplied does the same; and [handleSave] on a form holding
    that title shows the warning, leaves the form as it was and issues no
    request, so nothing reaches the store. *)
Theorem C2_blank_title_rejected `{Platform} (t : jsstring) :
  trim t = [] ->
  (forall newId stamp d due imp store,
     TodoStore.Create newId stamp t d due imp store
     = (inl TodoStore.ValidationError, store)) /\
  (forall i p store,
     TodoStore.p_title p = Some t ->
     TodoStore.Update i p store = (inl TodoStore.ValidationError, store)) /\
  (forall todoId (net : Request -> FetchOutcome TodoItem) st,
     AddEditScreen.title st = t ->
     AddEditScreen.handleSave todoId net st
     = Done st [Alert "Uyarı" "Görev başlığı boş bırakılamaz."] /\
     requests (effects_of (AddEditScreen.handleSave todoId net st)) = []).
Proof.
  intros Ht. split; [|split].
  - intros. unfold TodoStore.Create. by rewrite Ht.
  - intros i p store Hp. unfold TodoStore.Update. by rewrite Hp, Ht.
  - intros todoId net st Hst.
    assert (E : AddEditScreen.handleSave todoId net st
                = Done st [Alert "Uyarı" "Görev başlığı boş bırakılamaz."]).
    { unfold AddEditScreen.handleSave, AddEditScreen.handleSave_begin.
      by rewrite Hst, Ht. }
    rewrite E. split; reflexivity.
Qed.

Lemma C2_blank_title_rejected_witness :
  trim [32; 9; 160]%N = [] /\
  TodoStore.Create (lit "7") (lit "now") [32; 9; 160]%N None None None ∅
  = (inl TodoStore.ValidationError, ∅) /\
  AddEditScreen.handleSave (H := sample_host) None (fun _ => Response 201 (Some buy_milk))
    blank_form
  = Done blank_form [Alert "Uyarı" "Görev başlığı boş bırakılamaz."].
Proof.
  pose proof (@C2_blank_title_rejected sample_host [32; 9; 160]%N eq_refl)
    as (Hc & _ & Hs).
  split; [reflexivity|]. split.
  - apply Hc.
  - apply (Hs None _ blank_form eq_refl).
Defined.

(* ===================================================================== *)
(** ** C3, C4: what the save payload carries *)
(* ===================================================================== *)

(** The store reads the payload of a save as four supplied fields;
    isCompleted is not among them. *)
Lemma payload_fields `{Platform} st p :
  AddEditScreen.payload st = inr p ->
  exists part,
    TodoStore.partial_of_body p TodoStore.nothing = Some part /\
    TodoStore.p_title part = Some (trim (AddEditScreen.title st)) /\
    TodoStore.p_description part
    = Some (if truthy (trim (AddEditScreen.description st))
            then Some (trim (AddEditScreen.description st)) else None) /\
    is_Some (TodoStore.p_dueDate part) /\
    TodoStore.p_isImportant part = Some (AddEditScreen.isImportant st) /\
    TodoStore.p_isCompleted part = None.
Proof.
  intros Hp. destruct (payload_shape st p Hp) as (d & due & -> & -> & Hdue).
  destruct (truthy (trim (AddEditScreen.description st)));
    destruct Hdue as [-> | [s ->]]; simpl;
    eexists; (split; [reflexivity|]); simpl; eauto 10.
Qed.

(** C3.  Whenever [handleSave] sends a request, the title in its body is
    [title.trim()]: it is not empty and neither starts nor ends with a
    white-space character.  The store keeps it as sent: served as Create
    (a new item, POST to the collection) or as Update (an edited item,
    PUT to the item), the record stored has exactly that title. *)
Theorem C3_saved_title_is_trimmed `{Platform} todoId st req st1 out :
  AddEditScreen.handleSave_begin todoId st = Await req st1 out ->
  let t := trim (AddEditScreen.title st) in
  (exists p, body req = Some p /\ field "title" p = Some (JString t) /\
     (AddEditScreen.isEditing todoId = false ->
      method req = POST /\ url req = API_URL /\
      forall newId stamp store, exists item,
        TodoStore.post newId stamp p store
        = Some (inr item, <[newId := item]> store) /\
        Todo.title item = t) /\
     (forall i, todoId = Some i -> truthy i = true ->
      method req = PUT /\ url req = AddEditScreen.item_url i /\
      forall store old, store !! i = Some old -> exists item,
        TodoStore.put i p store = Some (inr item, <[i := item]> store) /\
        Todo.title item = t)) /\
  t <> [] /\
  (forall c, head t = Some c -> isWhiteSpace c = false) /\
  (forall c, last t = Some c -> isWhiteSpace c = false).
Proof.
  intros Hb t.
  destruct (handleSave_begin_await _ _ _ _ _ Hb) as (Hne & _ & _ & p & Hp & Hbody).
  split; [|split; [exact Hne|split; [apply trim_head|apply trim_last]]].
  exists p. split; [exact Hbody|].
  destruct (payload_fields st p Hp) as (part & Hpart & Ht & Hd & Hdue & Hi & Hc).
  destruct (payload_shape st p Hp) as (d & due & Hshape & _ & _).
  assert (Htt : truthy (trim t) = true).
  { unfold t. rewrite trim_idempotent. by apply truthy_true. }
  split; [by rewrite Hshape|]. split.
  - intros He. unfold AddEditScreen.handleSave_begin in Hb.
    rewrite He in Hb.
    destruct (truthy (trim (AddEditScreen.title st))); simpl in Hb; [|discriminate].
    rewrite Hp in Hb.
    assert (Hu : match todoId with
                 | Some i => if truthy i then AddEditScreen.item_url i else API_URL
                 | None => API_URL
                 end = API_URL).
    { destruct todoId as [i|]; [|reflexivity]. simpl in He. by rewrite He. }
    rewrite Hu in Hb. injection Hb as <- _ _.
    split; [reflexivity|]. split; [reflexivity|].
    intros newId stamp store. unfold TodoStore.post.
    rewrite Hpart, Ht, Hc. unfold TodoStore.Create. fold t. rewrite Htt.
    eexists. split; [reflexivity|]. simpl. apply trim_idempotent.
  - intros i -> Hi'. unfold AddEditScreen.handleSave_begin in Hb. simpl in Hb.
    rewrite Hi' in Hb.
    destruct (truthy (trim (AddEditScreen.title st))); simpl in Hb; [|discriminate].
    rewrite Hp in Hb. injection Hb as <- _ _.
    split; [reflexivity|]. split; [reflexivity|].
    intros store old Hold. unfold TodoStore.put, TodoStore.Update.
    rewrite Hpart, Ht. fold t. rewrite Htt, Hold. simpl.
    eexists. split; [reflexivity|]. simpl. rewrite Ht. apply trim_idempotent.
Qed.

Lemma C3_saved_title_is_trimmed_witness :
  exists req,
    AddEditScreen.handleSave_begin (H := sample_host) None padded_form
    = Await req (AddEditScreen.setIsSaving true padded_form) [] /\
    exists p, body req = Some p /\ field "title" p = Some (JString (lit "Buy milk")).
Proof.
  eexists. split; [reflexivity|].
  destruct (@C3_saved_title_is_trimmed sample_host None padded_form _ _ _ eq_refl)
    as [(p & Hp & Ht & _) _].
  exists p. split; [exact Hp|exact Ht].
Defined.

(** C4.  In the payload of a save, a description left blank is sent as
    [null] and a description with text as that text, trimmed; the
    property is never the empty string, which is a different JSON value
    from [null]. *)
Theorem C4_absent_description_is_null `{Platform} st p :
  AddEditScreen.payload st = inr p ->
  (trim (AddEditScreen.description st) = [] ->
   field "description" p = Some JNull) /\
  (trim (AddEditScreen.description st) <> [] ->
   field "description" p = Some (JString (trim (AddEditScreen.description st)))) /\
  field "description" p <> Some (JString []) /\
  JNull <> JString [].
Proof.
  intros Hp. destruct (payload_shape st p Hp) as (d & due & -> & -> & _).
  unfold field. simpl.
  destruct (truthy (trim (AddEditScreen.description st))) eqn:Hd.
  - apply truthy_true in Hd. repeat split; try done.
    simpl. intros [= E]. by apply Hd.
  - apply truthy_false in Hd. repeat split; try done.
Qed.

Lemma C4_absent_description_is_null_witness :
  exists p,
    AddEditScreen.payload (H := sample_host) padded_form = inr p /\
    field "description" p = Some JNull.
Proof.
  eexists. split; [reflexivity|].
  apply (@C4_absent_description_is_null sample_host padded_form _ eq_refl).
  reflexivity.
Defined.

(* ===================================================================== *)
(** ** C5, C10: which fields a request touches *)
(* ===================================================================== *)

Lemma Get_insert (i : jsstring) (t : TodoItem) (store : gmap (list N) TodoItem) :
  TodoStore.Get i (<[i := t]> store) = inr t.
Proof. unfold TodoStore.Get. by rewrite lookup_insert_eq. Qed.

(** C5.  Ticking the checkbox of an item sends one request, a PUT to the
    item whose body has the single property isCompleted, set to the
    negation of the value shown.  Served by the store as Update, it
    succeeds on a stored item, and Get then returns the old record with
    isCompleted replaced and every other field as before; other records
    are not touched. *)
Theorem C5_toggle_sends_isCompleted_only `{Platform} st item store old :
  store !! Todo.id item = Some old ->
  let v := negb (Todo.isCompleted item) in
  let b := [("isCompleted", JBool v)]%string in
  requests (snd (HomeScreen.step (HomeScreen.OnToggle item) st))
  = [{| method := PUT; url := API_URL ++ lit "/" ++ Todo.id item;
        headers := json_headers; body := Some b |}] /\
  exists new store',
    TodoStore.put (Todo.id item) b store = Some (inr new, store') /\
    TodoStore.Get (Todo.id item) store' = inr new /\
    Todo.isCompleted new = v /\
    Todo.id new = Todo.id old /\
    Todo.title new = Todo.title old /\
    Todo.description new = Todo.description old /\
    Todo.dueDate new = Todo.dueDate old /\
    Todo.isImportant new = Todo.isImportant old /\
    Todo.createdAt new = Todo.createdAt old /\
    (forall j, j <> Todo.id item -> store' !! j = store !! j).
Proof.
  intros Hold v b. split; [reflexivity|].
  unfold TodoStore.put, TodoStore.Update. simpl. rewrite Hold.
  eexists. eexists. split; [reflexivity|].
  split; [apply Get_insert|].
  repeat split; try reflexivity.
  intros j Hj. by rewrite lookup_insert_ne.
Qed.

Lemma C5_toggle_sends_isCompleted_only_witness :
  exists new store',
    TodoStore.put (lit "1") [("isCompleted", JBool true)]%string
      {[ lit "1" := buy_milk ]}
    = Some (inr new, store') /\
    TodoStore.Get (lit "1") store' = inr new /\
    Todo.isCompleted new = true /\
    Todo.title new = lit "Buy milk".
Proof.
  destruct (@C5_toggle_sends_isCompleted_only sample_host two_items buy_milk
              {[ lit "1" := buy_milk ]} buy_milk)
    as [_ (new & store' & Hput & Hget & Hc & _ & Ht & _)].
  - apply lookup_singleton_eq.
  - exists new, store'. repeat split; assumption.
Defined.

(** C10.  The body of every request sent by [handleSave] has exactly the
    properties title, description, dueDate and isImportant; isCompleted,
    id and createdAt are not in it.  Served by the store as Update on a
    stored item, it succeeds and leaves the isCompleted, the createdAt
    and the id of the record as they were. *)
Theorem C10_save_body_fields `{Platform} todoId st req st1 out :
  AddEditScreen.handleSave_begin todoId st = Await req st1 out ->
  exists p,
    body req = Some p /\
    p.*1 = ["title"; "description"; "dueDate"; "isImportant"]%string /\
    field "isCompleted" p = None /\
    field "id" p = None /\
    field "createdAt" p = None /\
    forall i store old, store !! i = Some old ->
      exists new store',
        TodoStore.put i p store = Some (inr new, store') /\
        TodoStore.Get i store' = inr new /\
        Todo.isCompleted new = Todo.isCompleted old /\
        Todo.createdAt new = Todo.createdAt old /\
        Todo.id new = Todo.id old.
Proof.
  intros Hb.
  destruct (handleSave_begin_await _ _ _ _ _ Hb) as (Hne & _ & _ & p & Hp & Hbody).
  exists p. split; [exact Hbody|].
  destruct (payload_fields st p Hp) as (part & Hpart & Ht & _ & _ & _ & Hc).
  destruct (payload_shape st p Hp) as (d & due & Hshape & _ & _).
  split; [by rewrite Hshape|].
  split; [by rewrite Hshape|].
  split; [by rewrite Hshape|].
  split; [by rewrite Hshape|].
  intros i store old Hold.
  unfold TodoStore.put, TodoStore.Update. rewrite Hpart, Ht.
  rewrite trim_idempotent.
  apply truthy_true in Hne. rewrite Hne. simpl. rewrite Hold.
  eexists. eexists. split; [reflexivity|].
  split; [apply Get_insert|].
  simpl. rewrite Hc. repeat split; reflexivity.
Qed.

Lemma C10_save_body_fields_witness :
  exists req p,
    AddEditScreen.handleSave_begin (H := sample_host) (Some (lit "1")) padded_form
    = Await req (AddEditScreen.setIsSaving true padded_form) [] /\
    body req = Some p /\
    p.*1 = ["title"; "description"; "dueDate"; "isImportant"]%string.
Proof.
  destruct (@C10_save_body_fields sample_host (Some (lit "1")) padded_form
              _ _ _ eq_refl) as (p & Hp & Hk & _).
  eexists. exists p. split; [reflexivity|]. split; assumption.
Defined.

(* ===================================================================== *)
(** ** C6: the debounce of the search field *)
(* ===================================================================== *)

Lemma one_timer_effect last0 last q st :
  last <= SearchBar.now st ->
  one_timer last0 st ->
  one_timer last (SearchBar.effect q st) /\
  SearchBar.timers (SearchBar.effect q st)
  = {[ SearchBar.next_id st :=
         {| SearchBar.due := SearchBar.now st + 300; SearchBar.captured := q |} ]}.
Proof.
  intros Hle Hinv.
  assert (Hcleared :
    match SearchBar.cleanup st with
    | Some i => delete i (SearchBar.timers st)
    | None => SearchBar.timers st
    end = ∅).
  { apply map_empty. intros i.
    destruct (SearchBar.cleanup st) as [c|] eqn:Hc.
    - destruct (decide (c = i)) as [->|Hne].
      + apply lookup_delete_eq.
      + rewrite lookup_delete_ne by done.
        destruct (SearchBar.timers st !! i) as [t|] eqn:Ht; [|done].
        destruct (Hinv i t Ht) as (Hc' & _). congruence.
    - destruct (SearchBar.timers st !! i) as [t|] eqn:Ht; [|done].
      destruct (Hinv i t Ht) as (Hc' & _). congruence. }
  assert (Ht : SearchBar.timers (SearchBar.effect q st)
    = {[ SearchBar.next_id st :=
           {| SearchBar.due := SearchBar.now st + 300; SearchBar.captured := q |} ]}).
  { unfold SearchBar.effect. simpl. by rewrite Hcleared. }
  split; [|exact Ht].
  intros i t Hi. rewrite Ht in Hi.
  apply lookup_singleton_Some in Hi as [<- <-].
  simpl. repeat split. lia.
Qed.

Lemma one_timer_step last ev st :
  last <= SearchBar.now st ->
  one_timer last st ->
  let st' := fst (SearchBar.step ev st) in
  let last' := SearchBar.last_edit [ev] (SearchBar.now st) (SearchBar.query st) last in
  last' <= SearchBar.now st' /\ one_timer last' st'.
Proof.
  intros Hle Hinv. destruct ev as [ms|q| |i]; simpl.
  - split; [lia|]. intros i t Hi. apply (Hinv i t Hi).
  - destruct (decide (q = SearchBar.query st)) as [->|Hne]; simpl.
    + split; [lia|exact Hinv].
    + split; [reflexivity|].
      by apply (one_timer_effect last).
  - split; [lia|]. by apply (one_timer_effect last).
  - destruct (SearchBar.timers st !! i) as [t|] eqn:Ht; simpl; [|by split].
    destruct (SearchBar.due t <=? SearchBar.now st); simpl; [|by split].
    split; [lia|]. intros j u Hj. simpl in Hj.
    apply lookup_delete_Some in Hj as [_ Hj]. apply (Hinv j u Hj).
Qed.

Lemma one_timer_run evs : forall last st,
  last <= SearchBar.now st ->
  one_timer last st ->
  let st' := SearchBar.run evs st in
  let last' := SearchBar.last_edit evs (SearchBar.now st) (SearchBar.query st) last in
  last' <= SearchBar.now st' /\ one_timer last' st'.
Proof.
  induction evs as [|ev evs IH]; intros last st Hle Hinv; [by split|].
  destruct (one_timer_step last ev st Hle Hinv) as [Hle1 Hinv1].
  specialize (IH _ _ Hle1 Hinv1). simpl in IH. simpl.
  destruct ev as [ms|q| |i]; simpl in *; try exact IH.
  - destruct (decide (q = SearchBar.query st)); exact IH.
  - destruct (SearchBar.timers st !! i) as [t|]; [|exact IH].
    destruct (SearchBar.due t <=? SearchBar.now st); exact IH.
Qed.

Lemma one_timer_mount t0 :
  one_timer t0 (SearchBar.mount t0).
Proof.
  unfold SearchBar.mount.
  apply (one_timer_effect t0 t0); [reflexivity|].
  intros i t Hi. simpl in Hi. by rewrite lookup_empty in Hi.
Qed.

(** C6.  In every run of the mounted search field, [onSearch] is called
    by nothing but a timer that runs: an edit of the text, a render of
    the parent and the passing of time call nothing.  A call passes the
    text the field holds at that moment, and at least 300 ms have passed
    since the text was last edited.  An edit itself calls nothing and
    cancels what was pending: after it, the only timer left is a new one,
    due 300 ms later, for the new text.  The list screen fetches for a
    filter when [onSearch] hands it a value it does not hold yet. *)
Theorem C6_search_is_debounced `{Platform} t0 evs :
  let st := SearchBar.run evs (SearchBar.mount t0) in
  (forall ev c,
     c ∈ snd (SearchBar.step ev st) ->
     (exists i, ev = SearchBar.TimerFires i) /\
     c = SearchBar.query st /\
     SearchBar.last_edit evs t0 [] t0 + 300 <= SearchBar.now st) /\
  (forall q,
     q <> SearchBar.query st ->
     exists st',
       SearchBar.step (SearchBar.ChangeText q) st = (st', []) /\
       SearchBar.query st' = q /\
       SearchBar.timers st'
       = {[ SearchBar.next_id st :=
              {| SearchBar.due := SearchBar.now st + 300;
                 SearchBar.captured := q |} ]}) /\
  (forall hs q u,
     HomeScreen.isFocused hs = true ->
     q <> HomeScreen.searchQuery hs ->
     HomeScreen.list_url q = inr u ->
     snd (HomeScreen.step (HomeScreen.OnSearch q) hs) = [Fetch (get u)]).
Proof.
  intros st.
  destruct (one_timer_run evs t0 (SearchBar.mount t0)) as [Hle Hinv].
  { reflexivity. }
  { apply one_timer_mount. }
  change (SearchBar.now (SearchBar.mount t0)) with t0 in *.
  change (SearchBar.query (SearchBar.mount t0)) with (@nil N) in *.
  fold st in Hle, Hinv.
  split; [|split].
  - intros ev c. destruct ev as [ms|q| |i]; cbn [SearchBar.step].
    + by intros ?%elem_of_nil.
    + destruct (decide (q = SearchBar.query st)); by intros ?%elem_of_nil.
    + by intros ?%elem_of_nil.
    + destruct (SearchBar.timers st !! i) as [t|] eqn:Ht;
        [|by intros ?%elem_of_nil].
      destruct (SearchBar.due t <=? SearchBar.now st) eqn:Hdue;
        [|by intros ?%elem_of_nil].
      cbn [snd]. intros ->%list_elem_of_singleton.
      destruct (Hinv i t Ht) as (_ & Hq & Hd).
      split; [by exists i|]. split; [exact Hq|].
      apply Z.leb_le in Hdue. lia.
  - intros q Hq. cbn [SearchBar.step].
    destruct (decide (q = SearchBar.query st)) as [E|_]; [done|].
    eexists. split; [reflexivity|]. split; [reflexivity|].
    by apply (one_timer_effect _ _ q st Hle Hinv).
  - intros hs q u Hf Hq Hu. simpl. unfold HomeScreen.handleSearch.
    destruct (decide (q = HomeScreen.searchQuery hs)) as [E|_]; [done|].
    unfold HomeScreen.refresh. simpl. rewrite Hf.
    unfold HomeScreen.fetchTodos_begin. by rewrite Hu.
Qed.

Lemma C6_search_is_debounced_witness :
  let st := SearchBar.run typing (SearchBar.mount 0) in
  snd (SearchBar.step (SearchBar.TimerFires 2) st) = [lit "ab"] /\
  lit "ab" = SearchBar.query st /\
  SearchBar.last_edit typing 0 [] 0 + 300 <= SearchBar.now st.
Proof.
  intros st.
  assert (Hcall : snd (SearchBar.step (SearchBar.TimerFires 2) st) = [lit "ab"]).
  { reflexivity. }
  split; [exact Hcall|].
  destruct (@C6_search_is_debounced sample_host 0 typing) as (Hfire & _ & _).
  destruct (Hfire (SearchBar.TimerFires 2) (lit "ab")) as (_ & Hq & Hd).
  - fold st. rewrite Hcall. left.
  - split; [exact Hq|exact Hd].
Defined.

(* ===================================================================== *)
(** ** C7: answers to list requests that arrive out of order *)
(* ===================================================================== *)

(** C7, counterexample.  The screen is mounted and requests the whole
    list; the filter becomes "milk" and a second request leaves; the
    answer to the second request arrives first, the answer to the first
    one last.  The filter is "milk", no request is in flight, and the
    list shown is the answer to the first request, not the answer to the
    request issued last. *)
Lemma C7_stale_response_is_displayed :
  let st := fst (HomeScreen.run (H := sample_host) overtaken
                   (fst (HomeScreen.mount (H := sample_host) true))) in
  requests (snd (HomeScreen.mount (H := sample_host) true)) = [get API_URL] /\
  requests (snd (HomeScreen.run (H := sample_host) overtaken
                   (fst (HomeScreen.mount (H := sample_host) true))))
  = [get (API_URL ++ lit "?search=milk")] /\
  HomeScreen.searchQuery st = lit "milk" /\
  HomeScreen.inflight st = [] /\
  HomeScreen.todos st = [buy_milk; buy_bread] /\
  ~ HomeScreen.todos st = [buy_milk].
Proof.
  cbv zeta. repeat split; try reflexivity.
  intros E. discriminate E.
Qed.

(** C7, as the code has it.  An answer to a list request with an ok
    status and a JSON body replaces the list shown at the moment it
    arrives, whichever request in flight it answers and whatever the
    filter is by then; an answer that is rejected, not ok or not JSON
    leaves the list as it is.  So when two list requests are in flight
    and the newer one is answered ok before the older one, the list
    shown after both is the answer to the older request. *)
Theorem C7_last_arrival_is_displayed `{Platform} :
  (forall st n status data,
     HomeScreen.inflight st !! n = Some HomeScreen.PendingTodos ->
     ok status = true ->
     let st' := fst (HomeScreen.step
                       (HomeScreen.TodosSettled n (Response status (Some data))) st) in
     HomeScreen.todos st' = data /\
     HomeScreen.loading st' = false /\
     HomeScreen.searchQuery st' = HomeScreen.searchQuery st /\
     HomeScreen.inflight st' = delete n (HomeScreen.inflight st)) /\
  (forall st n o,
     HomeScreen.inflight st !! n = Some HomeScreen.PendingTodos ->
     usable o = false ->
     let st' := fst (HomeScreen.step (HomeScreen.TodosSettled n o) st) in
     HomeScreen.todos st' = HomeScreen.todos st /\
     HomeScreen.inflight st' = delete n (HomeScreen.inflight st)) /\
  (forall st older newer s1 s2 data_newer data_older,
     (older < newer)%nat ->
     HomeScreen.inflight st !! older = Some HomeScreen.PendingTodos ->
     HomeScreen.inflight st !! newer = Some HomeScreen.PendingTodos ->
     ok s1 = true ->
     ok s2 = true ->
     let st1 := fst (HomeScreen.step
                       (HomeScreen.TodosSettled newer (Response s1 (Some data_newer)))
                       st) in
     let st2 := fst (HomeScreen.step
                       (HomeScreen.TodosSettled older (Response s2 (Some data_older)))
                       st1) in
     HomeScreen.todos st1 = data_newer /\
     HomeScreen.todos st2 = data_older).
Proof.
  split; [|split].
  - intros st n status data Hn Hok. simpl. rewrite Hn. simpl. rewrite Hok.
    by repeat split.
  - intros st n o Hn Ho. simpl. rewrite Hn.
    destruct o as [|status [data|]]; simpl in *; try by split.
    rewrite Ho. by split.
  - intros st older newer s1 s2 dn dold Hlt Ho Hn Hs1 Hs2. simpl.
    rewrite Hn. simpl. rewrite Hs1. simpl.
    rewrite list_lookup_delete_lt by exact Hlt. rewrite Ho. simpl.
    rewrite Hs2. by split.
Qed.

Lemma C7_last_arrival_is_displayed_witness :
  let st := fst (HomeScreen.run (H := sample_host) [HomeScreen.OnSearch (lit "milk")]
                   (fst (HomeScreen.mount (H := sample_host) true))) in
  HomeScreen.inflight st !! 0%nat = Some HomeScreen.PendingTodos /\
  HomeScreen.inflight st !! 1%nat = Some HomeScreen.PendingTodos /\
  HomeScreen.todos
    (fst (HomeScreen.step (H := sample_host)
            (HomeScreen.TodosSettled 0 (Response 200 (Some [buy_milk; buy_bread])))
            (fst (HomeScreen.step (H := sample_host)
                    (HomeScreen.TodosSettled 1 (Response 200 (Some [buy_milk])))
                    st))))
  = [buy_milk; buy_bread].
Proof.
  intros st. split; [reflexivity|]. split; [reflexivity|].
  destruct (@C7_last_arrival_is_displayed sample_host) as (_ & _ & Hlate).
  apply (Hlate st 0%nat 1%nat 200 200 [buy_milk] [buy_milk; buy_bread]);
    [lia|reflexivity|reflexivity|reflexivity|reflexivity].
Defined.

(* ===================================================================== *)
(** ** C8: calls that cannot reach the backend *)
(* ===================================================================== *)

Lemma refresh_todos `{Platform} st :
  HomeScreen.todos (fst (HomeScreen.refresh st)) = HomeScreen.todos st.
Proof.
  unfold HomeScreen.refresh, HomeScreen.fetchTodos_begin.
  destruct (HomeScreen.isFocused st); [|done].
  by destruct (HomeScreen.list_url (HomeScreen.searchQuery st)).
Qed.

Lemma setIsSaving_restores st :
  AddEditScreen.isSaving st = false ->
  AddEditScreen.setIsSaving false (AddEditScreen.setIsSaving true st) = st.
Proof. destruct st; simpl; intros ->; reflexivity. Qed.

(** C8.  At each of the four places where the client calls the backend, a
    call whose promise rejects ends normally, with an alert headed
    "Hata", and with the screen in the state it had before the call.
    - [handleSave]: the whole call leaves the form exactly as it was when
      the save was pressed.
    - [fetchTodoDetails]: sending the request changes nothing; after the
      rejection the fields of the form are as before, the spinner is off
      and the screen is left.
    - [fetchTodos]: sending the request switches the spinner on and
      touches nothing else; after the rejection the state is the one
      before the call with the spinner off: list, filter and requests in
      flight as they were.
    - [handleToggleCompletion]: sending the request changes neither the
      list nor anything else shown; after the rejection the state is
      exactly the one before the tick.
    The last four parts say the same for a rejection that arrives after
    other events: it changes nothing but the spinner and the request it
    settles. *)
Theorem C8_transport_error_is_contained `{Platform} :
  (forall todoId st req st1 out,
     AddEditScreen.isSaving st = false ->
     AddEditScreen.handleSave_begin todoId st = Await req st1 out ->
     AddEditScreen.handleSave todoId (fun _ => @Rejected TodoItem) st
     = Done st [Fetch req; ConsoleError "";
                Alert "Hata" "Kaydetme işlemi sırasında bir hata oluştu."]) /\
  (forall i st,
     AddEditScreen.fetchTodoDetails_begin i st
     = Await (get (AddEditScreen.item_url i)) st [] /\
     AddEditScreen.fetchTodoDetails_resume Rejected
       (state_of (AddEditScreen.fetchTodoDetails_begin i st))
     = (AddEditScreen.setLoading false st,
        [Alert "Hata" "Görev detayları yüklenirken hata oluştu."; GoBack])) /\
  (forall q u st,
     HomeScreen.list_url q = inr u ->
     let '(st1, out1) := HomeScreen.fetchTodos_begin q st in
     let '(st2, out2) :=
       HomeScreen.step
         (HomeScreen.TodosSettled (length (HomeScreen.inflight st)) Rejected) st1 in
     out1 = [Fetch (get u)] /\
     HomeScreen.todos st1 = HomeScreen.todos st /\
     HomeScreen.searchQuery st1 = HomeScreen.searchQuery st /\
     st2 = HomeScreen.setLoading false st /\
     out2 = HomeScreen.fetch_failed /\
     alerts out2 = [("Hata", "Görevler yüklenirken bir sorun oluştu.")]%string) /\
  (forall item st,
     let '(st1, out1) := HomeScreen.step (HomeScreen.OnToggle item) st in
     let '(st2, out2) :=
       HomeScreen.step
         (HomeScreen.ToggleSettled (length (HomeScreen.inflight st)) Rejected) st1 in
     length (requests out1) = 1%nat /\
     HomeScreen.todos st1 = HomeScreen.todos st /\
     HomeScreen.loading st1 = HomeScreen.loading st /\
     HomeScreen.searchQuery st1 = HomeScreen.searchQuery st /\
     st2 = st /\
     out2 = HomeScreen.toggle_failed /\
     alerts out2 = [("Hata", "Görevin durumu güncellenemedi.")]%string) /\
  (forall st,
     let '(st', out) := AddEditScreen.fetchTodoDetails_resume Rejected st in
     AddEditScreen.title st' = AddEditScreen.title st /\
     AddEditScreen.description st' = AddEditScreen.description st /\
     AddEditScreen.dueDate st' = AddEditScreen.dueDate st /\
     AddEditScreen.isImportant st' = AddEditScreen.isImportant st /\
     AddEditScreen.isSaving st' = AddEditScreen.isSaving st /\
     AddEditScreen.loading st' = false /\
     out = [Alert "Hata" "Görev detayları yüklenirken hata oluştu."; GoBack]) /\
  (forall st n,
     HomeScreen.inflight st !! n = Some HomeScreen.PendingTodos ->
     let '(st', out) := HomeScreen.step (HomeScreen.TodosSettled n Rejected) st in
     HomeScreen.todos st' = HomeScreen.todos st /\
     HomeScreen.searchQuery st' = HomeScreen.searchQuery st /\
     HomeScreen.isFocused st' = HomeScreen.isFocused st /\
     HomeScreen.loading st' = false /\
     HomeScreen.inflight st' = delete n (HomeScreen.inflight st) /\
     alerts out = [("Hata", "Görevler yüklenirken bir sorun oluştu.")]%string) /\
  (forall st n item v,
     HomeScreen.inflight st !! n = Some (HomeScreen.PendingToggle item v) ->
     let '(st', out) := HomeScreen.step (HomeScreen.ToggleSettled n Rejected) st in
     HomeScreen.todos st' = HomeScreen.todos st /\
     HomeScreen.searchQuery st' = HomeScreen.searchQuery st /\
     HomeScreen.isFocused st' = HomeScreen.isFocused st /\
     HomeScreen.loading st' = HomeScreen.loading st /\
     HomeScreen.inflight st' = delete n (HomeScreen.inflight st) /\
     alerts out = [("Hata", "Görevin durumu güncellenemedi.")]%string) /\
  (forall ev st,
     match ev with
     | HomeScreen.TodosSettled _ _ | HomeScreen.ToggleSettled _ _ => False
     | _ => True
     end ->
     HomeScreen.todos (fst (HomeScreen.step ev st)) = HomeScreen.todos st).
Proof.
  split; [|split; [|split; [|split; [|split; [|split; [|split]]]]]].
  - intros todoId st req st1 out Hs Hb.
    destruct (handleSave_begin_await _ _ _ _ _ Hb) as (_ & -> & -> & _).
    unfold AddEditScreen.handleSave. rewrite Hb. simpl.
    by rewrite setIsSaving_restores.
  - intros i st. split; reflexivity.
  - intros q u st Hu. unfold HomeScreen.fetchTodos_begin. rewrite Hu.
    cbn [HomeScreen.step]. unfold HomeScreen.suspend. simpl.
    rewrite list_lookup_middle by reflexivity. simpl.
    rewrite delete_middle, app_nil_r. by repeat split.
  - intros item st. cbn [HomeScreen.step].
    unfold HomeScreen.handleToggleCompletion_begin, HomeScreen.suspend. simpl.
    rewrite list_lookup_middle by reflexivity. simpl.
    rewrite delete_middle, app_nil_r. repeat split; try reflexivity.
    by destruct st.
  - intros st. simpl. by repeat split.
  - intros st n Hn. simpl. rewrite Hn. by repeat split.
  - intros st n item v Hn. simpl. rewrite Hn. by repeat split.
  - intros ev st Hev. destruct ev as [b|q|item|i| |n o|n o]; try done; simpl.
    + unfold HomeScreen.focusChanged. case_decide; [done|].
      by rewrite refresh_todos.
    + unfold HomeScreen.handleSearch. case_decide; [done|].
      by rewrite refresh_todos.
Qed.

Lemma C8_transport_error_is_contained_witness :
  exists req,
    AddEditScreen.handleSave_begin (H := sample_host) None padded_form
    = Await req (AddEditScreen.setIsSaving true padded_form) [] /\
    AddEditScreen.handleSave (H := sample_host) None
      (fun _ => @Rejected TodoItem) padded_form
    = Done padded_form
        [Fetch req; ConsoleError "";
         Alert "Hata" "Kaydetme işlemi sırasında bir hata oluştu."].
Proof.
  eexists. split; [reflexivity|].
  destruct (@C8_transport_error_is_contained sample_host) as (Hsave & _).
  apply (Hsave None padded_form _ _ _ eq_refl eq_refl).
Defined.

(* ===================================================================== *)
(** ** C9: the message for a 400 and for a 404 *)
(* ===================================================================== *)

(** C9, counterexample.  A save answered with 400 and a save answered with
    404 show the same alert. *)
Lemma C9_same_alert_for_400_and_404 :
  alerts (snd (AddEditScreen.handleSave_resume (Some (lit "1"))
                 (@Response TodoItem 400 None) padded_form))
  = alerts (snd (AddEditScreen.handleSave_resume (Some (lit "1"))
                   (@Response TodoItem 404 None) padded_form)) /\
  alerts (snd (AddEditScreen.handleSave_resume (Some (lit "1"))
                 (@Response TodoItem 404 None) padded_form))
  = [("Hata", "Kaydetme işlemi sırasında bir hata oluştu.")]%string.
Proof. split; reflexivity. Qed.

(** C9, as the code has it.  The effects of a failed call depend on the
    place of the call only: whether the backend answered 400, 404 or any
    other status outside 200..299, or could not be reached, a save, the
    load of an item, a list request and a toggle each report their one
    message. *)
Theorem C9_one_message_per_call_site `{Platform} :
  (forall todoId (o : FetchOutcome TodoItem) st,
     failed o = true ->
     snd (AddEditScreen.handleSave_resume todoId o st)
     = [ConsoleError "";
        Alert "Hata" "Kaydetme işlemi sırasında bir hata oluştu."]) /\
  (forall (o : FetchOutcome TodoItem) st,
     failed o = true ->
     snd (AddEditScreen.fetchTodoDetails_resume o st)
     = [Alert "Hata" "Görev detayları yüklenirken hata oluştu."; GoBack]) /\
  (forall (o : FetchOutcome (list TodoItem)) st,
     failed o = true ->
     snd (HomeScreen.fetchTodos_resume o st) = HomeScreen.fetch_failed) /\
  (forall item v (o : FetchOutcome TodoItem) st,
     failed o = true ->
     snd (HomeScreen.handleToggleCompletion_resume item v o st)
     = HomeScreen.toggle_failed).
Proof.
  repeat split.
  - intros todoId [|status data] st Hf; simpl in *; [done|].
    apply negb_true_iff in Hf. by rewrite Hf.
  - intros [|status [data|]] st Hf; simpl in *; try done.
    apply negb_true_iff in Hf. by rewrite Hf.
  - intros [|status [data|]] st Hf; simpl in *; try done.
    apply negb_true_iff in Hf. by rewrite Hf.
  - intros item v [|status data] st Hf; simpl in *; [done|].
    apply negb_true_iff in Hf. by rewrite Hf.
Qed.

Lemma C9_one_message_per_call_site_witness :
  failed (@Response TodoItem 404 None) = true /\
  snd (AddEditScreen.handleSave_resume (Some (lit "1"))
         (@Response TodoItem 404 None) padded_form)
  = [ConsoleError "";
     Alert "Hata" "Kaydetme işlemi sırasında bir hata oluştu."].
Proof.
  split; [reflexivity|].
  destruct (@C9_one_message_per_call_site sample_host) as (Hsave & _).
  apply (Hsave (Some (lit "1")) (Response 404 None) padded_form eq_refl).
Defined.

(* ===================================================================== *)
(** ** The list update of a confirmed toggle *)
(* ===================================================================== *)

Lemma mark_idempotent item v prev :
  HomeScreen.mark item v (HomeScreen.mark item v prev) = HomeScreen.mark item v prev.
Proof.
  unfold HomeScreen.mark. rewrite map_map. apply map_ext. intros t.
  destruct (decide (Todo.id t = Todo.id item)) as [E|E]; simpl.
  - by rewrite decide_True.
  - by rewrite decide_False.
Qed.

(** X1.  The update applied to the list when a toggle is confirmed keeps
    the number and the order of the items and every field of every item
    except isCompleted; isCompleted becomes the new status on the items
    that have the id of the toggled item and stays as it is on the
    others.  The fields are those of the list at that moment, not those
    of the item as it was when the checkbox was ticked. *)
Theorem X1_mark_touches_isCompleted_only item v prev :
  length (HomeScreen.mark item v prev) = length prev /\
  Todo.id <$> HomeScreen.mark item v prev = Todo.id <$> prev /\
  Todo.title <$> HomeScreen.mark item v prev = Todo.title <$> prev /\
  Todo.description <$> HomeScreen.mark item v prev = Todo.description <$> prev /\
  Todo.dueDate <$> HomeScreen.mark item v prev = Todo.dueDate <$> prev /\
  Todo.isImportant <$> HomeScreen.mark item v prev = Todo.isImportant <$> prev /\
  Todo.createdAt <$> HomeScreen.mark item v prev = Todo.createdAt <$> prev /\
  (forall i t, HomeScreen.mark item v prev !! i = Some t ->
     exists t0, prev !! i = Some t0 /\
       Todo.isCompleted t
       = if decide (Todo.id t0 = Todo.id item) then v else Todo.isCompleted t0).
Proof.
  unfold HomeScreen.mark.
  split; [apply length_map|].
  repeat split;
    try (induction prev as [|a prev IH]; [done|]; simpl; f_equal; [|exact IH];
         by destruct (decide (Todo.id a = Todo.id item))).
  intros i t Hi. change (map ?f prev) with (f <$> prev) in Hi.
  rewrite list_lookup_fmap in Hi.
  destruct (prev !! i) as [t0|]; [|discriminate].
  exists t0. split; [done|]. simpl in Hi. injection Hi as <-.
  by destruct (decide (Todo.id t0 = Todo.id item)).
Qed.

(** X2.  When the answer to a toggle arrives and no item of the list has
    the id of the toggled item any more (the list was replaced in the
    meantime), an ok answer leaves the list as it is and shows nothing. *)
Theorem X2_toggle_of_vanished_item `{Platform} st n item v status
  (data : option TodoItem) :
  HomeScreen.inflight st !! n = Some (HomeScreen.PendingToggle item v) ->
  ok status = true ->
  (forall t, t ∈ HomeScreen.todos st -> Todo.id t <> Todo.id item) ->
  let '(st', out) := HomeScreen.step
                       (HomeScreen.ToggleSettled n (Response status data)) st in
  HomeScreen.todos st' = HomeScreen.todos st /\ out = [].
Proof.
  intros Hn Hok Hid. simpl. rewrite Hn. simpl. rewrite Hok. simpl.
  split; [|done]. unfold HomeScreen.mark.
  induction (HomeScreen.todos st) as [|a l IH]; [done|]. simpl.
  rewrite decide_False by (apply Hid; left).
  f_equal. apply IH. intros t Ht. apply Hid. by right.
Qed.

Lemma X2_toggle_of_vanished_item_witness :
  let st := HomeScreen.setTodos [buy_bread]
              (fst (HomeScreen.step (H := sample_host)
                      (HomeScreen.OnToggle buy_milk) two_items)) in
  HomeScreen.inflight st !! 0%nat = Some (HomeScreen.PendingToggle buy_milk true) /\
  HomeScreen.todos
    (fst (HomeScreen.step (H := sample_host)
            (HomeScreen.ToggleSettled 0 (Response 200 (Some buy_milk))) st))
  = [buy_bread].
Proof.
  intros st. split; [reflexivity|].
  pose proof (@X2_toggle_of_vanished_item sample_host st 0%nat buy_milk true 200
                (Some buy_milk) eq_refl eq_refl) as HX.
  destruct (HomeScreen.step (HomeScreen.ToggleSettled 0 (Response 200 (Some buy_milk))) st)
    as [st' out] eqn:E.
  simpl. apply HX.
  intros t Ht. apply list_elem_of_singleton in Ht as ->. discriminate.
Defined.

(** X3.  Ticking the checkbox of the same rendered item twice before any
    answer arrives sends the same request twice, with the same value of
    isCompleted; when both are answered with an ok status, the list is
    the one a single confirmed toggle gives: the second tick does not
    toggle back. *)
Theorem X3_double_tick_sends_same_value `{Platform} st item s1 s2
  (d1 d2 : option TodoItem) :
  ok s1 = true ->
  ok s2 = true ->
  let v := negb (Todo.isCompleted item) in
  let n := length (HomeScreen.inflight st) in
  let '(st1, out1) := HomeScreen.step (HomeScreen.OnToggle item) st in
  let '(st2, out2) := HomeScreen.step (HomeScreen.OnToggle item) st1 in
  let st3 := fst (HomeScreen.step
                    (HomeScreen.ToggleSettled n (Response s1 d1)) st2) in
  let st4 := fst (HomeScreen.step
                    (HomeScreen.ToggleSettled n (Response s2 d2)) st3) in
  out1 = out2 /\
  (exists r, requests out1 = [r] /\
             body r = Some [("isCompleted", JBool v)]%string) /\
  HomeScreen.todos st2 = HomeScreen.todos st /\
  HomeScreen.todos st3 = HomeScreen.mark item v (HomeScreen.todos st) /\
  HomeScreen.todos st4 = HomeScreen.mark item v (HomeScreen.todos st) /\
  HomeScreen.inflight st4 = HomeScreen.inflight st.
Proof.
  intros Hs1 Hs2 v n. subst v n. simpl.
  split; [reflexivity|]. split; [eexists; split; reflexivity|].
  split; [reflexivity|].
  unfold HomeScreen.suspend. simpl.
  rewrite <- (assoc_L (++)). simpl.
  rewrite list_lookup_middle by reflexivity. simpl.
  rewrite delete_middle, Hs1. simpl.
  rewrite list_lookup_middle by reflexivity. simpl.
  rewrite delete_middle, app_nil_r, Hs2. simpl. rewrite mark_idempotent.
  repeat split; reflexivity.
Qed.

Lemma X3_double_tick_sends_same_value_witness :
  let '(st1, out1) := HomeScreen.step (H := sample_host)
                        (HomeScreen.OnToggle buy_milk) two_items in
  let '(st2, out2) := HomeScreen.step (H := sample_host)
                        (HomeScreen.OnToggle buy_milk) st1 in
  let st3 := fst (HomeScreen.step (H := sample_host)
                    (HomeScreen.ToggleSettled 0 (Response 200 None)) st2) in
  let st4 := fst (HomeScreen.step (H := sample_host)
                    (HomeScreen.ToggleSettled 0 (Response 204 None)) st3) in
  out1 = out2 /\
  (exists r, requests out1 = [r] /\
             body r = Some [("isCompleted", JBool true)]%string) /\
  HomeScreen.todos st2 = [buy_milk; buy_bread] /\
  HomeScreen.todos st3 = HomeScreen.mark buy_milk true [buy_milk; buy_bread] /\
  HomeScreen.todos st4 = HomeScreen.mark buy_milk true [buy_milk; buy_bread] /\
  HomeScreen.inflight st4 = [].
Proof.
  apply (@X3_double_tick_sends_same_value sample_host two_items buy_milk 200 204
           None None eq_refl eq_refl).
Defined.

Lemma X1_mark_touches_isCompleted_only_witness :
  HomeScreen.mark buy_milk true [buy_milk; buy_bread] !! 0%nat
  = Some (Todo.with_isCompleted true buy_milk) /\
  exists t0, [buy_milk; buy_bread] !! 0%nat = Some t0 /\
    Todo.isCompleted (Todo.with_isCompleted true buy_milk)
    = if decide (Todo.id t0 = Todo.id buy_milk) then true else Todo.isCompleted t0.
Proof.
  split; [reflexivity|].
  destruct (X1_mark_touches_isCompleted_only buy_milk true [buy_milk; buy_bread])
    as (_ & _ & _ & _ & _ & _ & _ & Hi).
  apply (Hi 0%nat (Todo.with_isCompleted true buy_milk)). reflexivity.
Defined.

(* ===================================================================== *)
(** ** Runs of the list screen *)
(* ===================================================================== *)

Lemma requests_app (a b : list Effect) :
  requests (a ++ b) = requests a ++ requests b.
Proof. unfold requests. apply omap_app. Qed.

Lemma list_url_prefix `{Platform} q u :
  HomeScreen.list_url q = inr u -> API_URL `prefix_of` u.
Proof.
  unfold HomeScreen.list_url. destruct (truthy q).
  - destruct (encodeURIComponent q); [|discriminate].
    intros [= <-]. by eexists.
  - intros [= <-]. done.
Qed.

Lemma refresh_effects `{Platform} st :
  (snd (HomeScreen.refresh st) = [] \/
   snd (HomeScreen.refresh st) = HomeScreen.fetch_failed \/
   exists u, HomeScreen.list_url (HomeScreen.searchQuery st) = inr u /\
             snd (HomeScreen.refresh st) = [Fetch (get u)]).
Proof.
  unfold HomeScreen.refresh, HomeScreen.fetchTodos_begin.
  destruct (HomeScreen.isFocused st); [|by left].
  destruct (HomeScreen.list_url (HomeScreen.searchQuery st)) as [e|u] eqn:E.
  - right. by left.
  - right. right. by exists u.
Qed.

Lemma step_requests `{Platform} ev st r :
  r ∈ requests (snd (HomeScreen.step ev st)) -> list_screen_request r.
Proof.
  assert (Href : forall s, r ∈ requests (snd (HomeScreen.refresh s)) ->
                           list_screen_request r).
  { intros s. destruct (refresh_effects s) as [E | [E | (u & Hu & E)]];
      rewrite E; simpl.
    - by intros ?%elem_of_nil.
    - by intros ?%elem_of_nil.
    - intros ->%list_elem_of_singleton. left. repeat split.
      by eapply list_url_prefix. }
  destruct ev as [b|q|item|i| |n o|n o]; simpl.
  - unfold HomeScreen.focusChanged. case_decide; [by intros ?%elem_of_nil|].
    apply Href.
  - unfold HomeScreen.handleSearch. case_decide; [by intros ?%elem_of_nil|].
    apply Href.
  - intros ->%list_elem_of_singleton. right. split; [done|]. by eexists.
  - by intros ?%elem_of_nil.
  - by intros ?%elem_of_nil.
  - destruct (HomeScreen.inflight st !! n) as [[|it v]|]; simpl;
      try by intros ?%elem_of_nil.
    destruct o as [|status [data|]]; simpl; try by intros ?%elem_of_nil.
    destruct (ok status); simpl; by intros ?%elem_of_nil.
  - destruct (HomeScreen.inflight st !! n) as [[|it v]|]; simpl;
      try by intros ?%elem_of_nil.
    destruct o as [|status data]; simpl; try by intros ?%elem_of_nil.
    destruct (ok status); simpl; by intros ?%elem_of_nil.
Qed.

(** X4.  Whatever happens to the list screen, every request it sends is
    either a GET without body to a URL that starts with [API_URL], or a
    PUT whose body is the single property isCompleted: the screen never
    creates an item and never sends another field of one. *)
Theorem X4_list_screen_requests `{Platform} evs : forall st r,
  r ∈ requests (snd (HomeScreen.run evs st)) -> list_screen_request r.
Proof.
  induction evs as [|ev evs IH]; intros st r; simpl.
  - by intros ?%elem_of_nil.
  - destruct (HomeScreen.step ev st) as [st1 out1] eqn:E1.
    destruct (HomeScreen.run evs st1) as [st2 out2] eqn:E2. simpl.
    rewrite requests_app. intros [Hr|Hr]%elem_of_app.
    + apply (step_requests ev st). by rewrite E1.
    + apply (IH st1). by rewrite E2.
Qed.

Lemma X4_list_screen_requests_witness :
  list_screen_request (get (API_URL ++ lit "?search=milk")).
Proof.
  apply (@X4_list_screen_requests sample_host overtaken
           (fst (HomeScreen.mount (H := sample_host) true))).
  vm_compute. left.
Defined.

Lemma not_elem_of_delete {A : Type} (l : list A) (n : nat) (x y : A) :
  l !! n = Some y -> x <> y -> x ∉ delete n l -> x ∉ l.
Proof.
  intros Hn Hxy Hd Hx. apply Hd.
  rewrite <- (take_drop_middle l n y Hn) in Hx.
  rewrite delete_take_drop.
  apply elem_of_app in Hx as [Hx|Hx]; [apply elem_of_app; by left|].
  apply elem_of_cons in Hx as [->|Hx]; [done|].
  apply elem_of_app. by right.
Qed.

Lemma refresh_loading `{Platform} st :
  (HomeScreen.isFocused st = false ->
   HomeScreen.PendingTodos ∉ HomeScreen.inflight st ->
   HomeScreen.loading st = false) ->
  HomeScreen.PendingTodos ∉ HomeScreen.inflight (fst (HomeScreen.refresh st)) ->
  HomeScreen.loading (fst (HomeScreen.refresh st)) = false.
Proof.
  unfold HomeScreen.refresh, HomeScreen.fetchTodos_begin.
  destruct (HomeScreen.isFocused st); [|by intros Hinv; apply Hinv].
  destruct (HomeScreen.list_url (HomeScreen.searchQuery st)); simpl; [done|].
  intros _ Hn. exfalso. apply Hn. apply elem_of_app. right. by left.
Qed.

Lemma step_loading `{Platform} ev st :
  (HomeScreen.PendingTodos ∉ HomeScreen.inflight st ->
   HomeScreen.loading st = false) ->
  HomeScreen.PendingTodos ∉ HomeScreen.inflight (fst (HomeScreen.step ev st)) ->
  HomeScreen.loading (fst (HomeScreen.step ev st)) = false.
Proof.
  intros Hinv. destruct ev as [b|q|item|i| |n o|n o]; simpl; try exact Hinv.
  - unfold HomeScreen.focusChanged. case_decide; [exact Hinv|].
    apply refresh_loading. intros _. exact Hinv.
  - unfold HomeScreen.handleSearch. case_decide; [exact Hinv|].
    apply refresh_loading. intros _. exact Hinv.
  - intros Hn. apply Hinv. intros Hx. apply Hn.
    apply elem_of_app. by left.
  - destruct (HomeScreen.inflight st !! n) as [[|it v]|] eqn:En; simpl;
      try exact Hinv.
    destruct o as [|status [data|]]; simpl; try done.
    by destruct (ok status).
  - destruct (HomeScreen.inflight st !! n) as [[|it v]|] eqn:En; simpl;
      try exact Hinv.
    assert (Hd : HomeScreen.PendingTodos ∉ delete n (HomeScreen.inflight st) ->
                 HomeScreen.loading st = false).
    { intros Hd. apply Hinv. by eapply not_elem_of_delete. }
    destruct o as [|status data]; simpl; [exact Hd|].
    by destruct (ok status).
Qed.

Lemma run_loading `{Platform} evs : forall st,
  (HomeScreen.PendingTodos ∉ HomeScreen.inflight st ->
   HomeScreen.loading st = false) ->
  HomeScreen.PendingTodos ∉ HomeScreen.inflight (fst (HomeScreen.run evs st)) ->
  HomeScreen.loading (fst (HomeScreen.run evs st)) = false.
Proof.
  induction evs as [|ev evs IH]; intros st Hinv; simpl; [exact Hinv|].
  pose proof (step_loading ev st Hinv) as H1.
  destruct (HomeScreen.step ev st) as [st1 out1]. simpl in H1.
  specialize (IH st1 H1).
  by destruct (HomeScreen.run evs st1) as [st2 out2].
Qed.

Lemma mounted_loading `{Platform} evs :
  HomeScreen.PendingTodos
    ∉ HomeScreen.inflight (fst (HomeScreen.run evs (fst (HomeScreen.mount true)))) ->
  HomeScreen.loading (fst (HomeScreen.run evs (fst (HomeScreen.mount true)))) = false.
Proof. apply run_loading. apply refresh_loading. discriminate. Qed.

(** X5.  On the screen mounted in focus, after any sequence of events:
    when no list request is in flight, the loading flag is off. *)
Theorem X5_loading_needs_a_request `{Platform} evs :
  let st := fst (HomeScreen.run evs (fst (HomeScreen.mount true))) in
  HomeScreen.PendingTodos ∉ HomeScreen.inflight st ->
  HomeScreen.loading st = false.
Proof. intros st. apply mounted_loading. Qed.

Lemma X5_loading_needs_a_request_witness :
  let st := fst (HomeScreen.run (H := sample_host) overtaken
                   (fst (HomeScreen.mount (H := sample_host) true))) in
  (HomeScreen.PendingTodos ∉ HomeScreen.inflight st) /\
  HomeScreen.loading st = false.
Proof.
  intros st.
  assert (Hn : HomeScreen.PendingTodos ∉ HomeScreen.inflight st).
  { apply not_elem_of_nil. }
  split; [exact Hn|].
  apply (@X5_loading_needs_a_request sample_host overtaken Hn).
Defined.

Lemma refresh_searchQuery `{Platform} st :
  HomeScreen.searchQuery (fst (HomeScreen.refresh st)) = HomeScreen.searchQuery st /\
  HomeScreen.isFocused (fst (HomeScreen.refresh st)) = HomeScreen.isFocused st /\
  HomeScreen.todos (fst (HomeScreen.refresh st)) = HomeScreen.todos st.
Proof.
  unfold HomeScreen.refresh, HomeScreen.fetchTodos_begin.
  destruct (HomeScreen.isFocused st) eqn:Hf; [|done].
  by destruct (HomeScreen.list_url (HomeScreen.searchQuery st)).
Qed.

(** X6.  [handleSearch] makes the value it is given the filter of the
    screen, and a second call with the same value does nothing: no state
    change, no request.  The call that the search field repeats after the
    screen has rendered again is therefore harmless. *)
Theorem X6_repeated_search_is_dropped `{Platform} st q :
  let st1 := fst (HomeScreen.step (HomeScreen.OnSearch q) st) in
  HomeScreen.searchQuery st1 = q /\
  HomeScreen.todos st1 = HomeScreen.todos st /\
  HomeScreen.step (HomeScreen.OnSearch q) st1 = (st1, []).
Proof.
  intros st1.
  assert (Hq : HomeScreen.searchQuery st1 = q /\
               HomeScreen.todos st1 = HomeScreen.todos st).
  { subst st1. simpl. unfold HomeScreen.handleSearch.
    destruct (decide (q = HomeScreen.searchQuery st)) as [E|E]; simpl; [done|].
    destruct (refresh_searchQuery (HomeScreen.setSearchQuery q st)) as (Hq & _ & Ht).
    by split. }
  destruct Hq as [Hq Ht]. split; [exact Hq|]. split; [exact Ht|].
  simpl. unfold HomeScreen.handleSearch. by rewrite decide_True.
Qed.

(** X7.  While the screen is not focused, a new filter is stored without
    any request and without touching the list or the loading flag; when
    the screen regains focus, exactly one request leaves, for the filter
    stored last. *)
Theorem X7_unfocused_search_waits_for_focus `{Platform} st q u :
  HomeScreen.isFocused st = false ->
  HomeScreen.list_url q = inr u ->
  let '(st1, out1) := HomeScreen.step (HomeScreen.OnSearch q) st in
  let '(st2, out2) := HomeScreen.step (HomeScreen.FocusChanged true) st1 in
  out1 = [] /\
  HomeScreen.searchQuery st1 = q /\
  HomeScreen.todos st1 = HomeScreen.todos st /\
  HomeScreen.loading st1 = HomeScreen.loading st /\
  HomeScreen.inflight st1 = HomeScreen.inflight st /\
  out2 = [Fetch (get u)] /\
  HomeScreen.loading st2 = true /\
  HomeScreen.inflight st2 = HomeScreen.inflight st ++ [HomeScreen.PendingTodos].
Proof.
  intros Hf Hu. simpl. unfold HomeScreen.handleSearch.
  destruct (decide (q = HomeScreen.searchQuery st)) as [E|E].
  - unfold HomeScreen.focusChanged. rewrite Hf. simpl.
    unfold HomeScreen.refresh, HomeScreen.fetchTodos_begin. simpl.
    rewrite <- E, Hu. by repeat split.
  - unfold HomeScreen.refresh at 1. simpl. rewrite Hf.
    unfold HomeScreen.focusChanged. simpl. rewrite Hf. simpl.
    unfold HomeScreen.refresh, HomeScreen.fetchTodos_begin. simpl.
    rewrite Hu. by repeat split.
Qed.

Lemma X7_unfocused_search_waits_for_focus_witness :
  HomeScreen.isFocused (HomeScreen.initial false) = false /\
  let '(st1, out1) := HomeScreen.step (H := sample_host)
                        (HomeScreen.OnSearch (lit "milk")) (HomeScreen.initial false) in
  let '(st2, out2) := HomeScreen.step (H := sample_host)
                        (HomeScreen.FocusChanged true) st1 in
  out1 = [] /\
  HomeScreen.searchQuery st1 = lit "milk" /\
  HomeScreen.todos st1 = [] /\
  HomeScreen.loading st1 = true /\
  HomeScreen.inflight st1 = [] /\
  out2 = [Fetch (get (API_URL ++ lit "?search=milk"))] /\
  HomeScreen.loading st2 = true /\
  HomeScreen.inflight st2 = [HomeScreen.PendingTodos].
Proof.
  split; [reflexivity|].
  apply (@X7_unfocused_search_waits_for_focus sample_host (HomeScreen.initial false)
           (lit "milk") (API_URL ++ lit "?search=milk") eq_refl eq_refl).
Defined.

(** X8.  When [encodeURIComponent] refuses a filter (it is not empty and
    the built-in raises URIError), [fetchTodos] sends nothing: the error
    is caught, the alert of a failed load is shown, the loading flag is
    off, and the list, the filter and the requests in flight are as they
    were. *)
Theorem X8_unencodable_filter_sends_nothing `{Platform} q st :
  q <> [] ->
  encodeURIComponent q = None ->
  let '(st', out) := HomeScreen.fetchTodos_begin q st in
  requests out = [] /\
  alerts out = [("Hata", "Görevler yüklenirken bir sorun oluştu.")]%string /\
  HomeScreen.loading st' = false /\
  HomeScreen.todos st' = HomeScreen.todos st /\
  HomeScreen.searchQuery st' = HomeScreen.searchQuery st /\
  HomeScreen.inflight st' = HomeScreen.inflight st.
Proof.
  intros Hq He. unfold HomeScreen.fetchTodos_begin, HomeScreen.list_url.
  apply truthy_true in Hq. rewrite Hq, He. by repeat split.
Qed.

Lemma X8_unencodable_filter_sends_nothing_witness :
  [55357%N] <> [] /\
  encodeURIComponent (Platform := strict_host) [55357%N] = None /\
  let '(st', out) := HomeScreen.fetchTodos_begin (H := strict_host)
                       [55357%N] two_items in
  requests out = [] /\
  alerts out = [("Hata", "Görevler yüklenirken bir sorun oluştu.")]%string /\
  HomeScreen.loading st' = false /\
  HomeScreen.todos st' = [buy_milk; buy_bread] /\
  HomeScreen.searchQuery st' = [] /\
  HomeScreen.inflight st' = [].
Proof.
  split; [discriminate|]. split; [reflexivity|].
  apply (@X8_unencodable_filter_sends_nothing strict_host [55357%N] two_items);
    [discriminate|reflexivity].
Defined.

(* ===================================================================== *)
(** ** Loading an item into the form and saving it *)
(* ===================================================================== *)



(** X10.  An item whose due date is a string the host cannot parse is
    loaded into the form as the invalid date.  Saving that form raises
    RangeError while the payload is built, before the [try] block: no
    request is sent, no alert is shown, and isSaving stays true, which
    keeps the save button disabled. *)
Theorem X10_unparsable_due_date_blocks_save `{Platform} todoId data status st0 s :
  ok status = true ->
  Todo.dueDate data = Some s ->
  s <> [] ->
  parseDate s = InvalidDate ->
  trim (Todo.title data) <> [] ->
  let st := fst (AddEditScreen.fetchTodoDetails_resume
                   (Response status (Some data)) st0) in
  AddEditScreen.dueDate st = Some InvalidDate /\
  forall net : Request -> FetchOutcome TodoItem,
    AddEditScreen.handleSave todoId net st
    = Threw RangeError (AddEditScreen.setIsSaving true st) [] /\
    effects_of (AddEditScreen.handleSave todoId net st) = [] /\
    AddEditScreen.isSaving (state_of (AddEditScreen.handleSave todoId net st)) = true.
Proof.
  intros Hok Hdue Hs Hp Ht. simpl. rewrite Hok. simpl.
  apply truthy_true in Hs, Ht.
  assert (Hd : AddEditScreen.dueDate (AddEditScreen.load data st0) = Some InvalidDate).
  { simpl. by rewrite Hdue, Hs, Hp. }
  split; [exact Hd|]. intros net.
  assert (E : AddEditScreen.handleSave todoId net
                (AddEditScreen.setLoading false (AddEditScreen.load data st0))
              = Threw RangeError
                  (AddEditScreen.setIsSaving true
                     (AddEditScreen.setLoading false (AddEditScreen.load data st0))) []).
  { unfold AddEditScreen.handleSave, AddEditScreen.handleSave_begin,
      AddEditScreen.payload. simpl. by rewrite Ht, Hdue, Hs, Hp. }
  rewrite E. by repeat split.
Qed.

Lemma X10_unparsable_due_date_blocks_save_witness :
  parseDate (Platform := strict_host) (lit "tomorrow") = InvalidDate /\
  AddEditScreen.handleSave (H := strict_host) (Some (lit "1"))
    (fun _ => Response 200 (Some misdated_milk))
    (fst (AddEditScreen.fetchTodoDetails_resume (H := strict_host)
            (Response 200 (Some misdated_milk)) AddEditScreen.initial))
  = Threw RangeError
      (AddEditScreen.setIsSaving true
         (fst (AddEditScreen.fetchTodoDetails_resume (H := strict_host)
                 (Response 200 (Some misdated_milk)) AddEditScreen.initial))) [].
Proof.
  split; [reflexivity|].
  destruct (@X10_unparsable_due_date_blocks_save strict_host (Some (lit "1"))
              misdated_milk 200 AddEditScreen.initial (lit "tomorrow")
              eq_refl eq_refl ltac:(discriminate) eq_refl ltac:(discriminate))
    as [_ Hsave].
  apply Hsave.
Defined.

(** X11.  A save that sends its request always ends, whatever the answer:
    the fields of the form are untouched and isSaving is false again,
    exactly one request was sent and exactly one alert shown, and the
    screen is left exactly when the answer has an ok status; after a
    failure the form stays open with what was typed. *)
Theorem X11_save_always_ends `{Platform} todoId
  (net : Request -> FetchOutcome TodoItem) st req st1 out :
  AddEditScreen.handleSave_begin todoId st = Await req st1 out ->
  exists out',
    AddEditScreen.handleSave todoId net st
    = Done (AddEditScreen.setIsSaving false st) out' /\
    requests out' = [req] /\
    length (alerts out') = 1%nat /\
    (GoBack ∈ out' <-> failed (net req) = false).
Proof.
  intros Hb.
  destruct (handleSave_begin_await _ _ _ _ _ Hb) as (_ & -> & -> & _).
  unfold AddEditScreen.handleSave. rewrite Hb.
  destruct (net req) as [|status data] eqn:En; simpl.
  - eexists. split; [reflexivity|]. repeat split; try done.
    intros Hg. repeat (apply elem_of_cons in Hg as [Hg|Hg]; [discriminate|]).
    by apply elem_of_nil in Hg.
  - destruct (ok status) eqn:Hok; simpl.
    + eexists. split; [reflexivity|]. repeat split; try done.
      intros _. do 2 right. left.
    + eexists. split; [reflexivity|]. repeat split; try done.
      intros Hg. repeat (apply elem_of_cons in Hg as [Hg|Hg]; [discriminate|]).
      by apply elem_of_nil in Hg.
Qed.

Lemma X11_save_always_ends_witness :
  exists req out',
    AddEditScreen.handleSave_begin (H := sample_host) None padded_form
    = Await req (AddEditScreen.setIsSaving true padded_form) [] /\
    AddEditScreen.handleSave (H := sample_host) None
      (fun _ => Response 500 (@None TodoItem)) padded_form
    = Done (AddEditScreen.setIsSaving false padded_form) out' /\
    requests out' = [req].
Proof.
  destruct (@X11_save_always_ends sample_host None
              (fun _ => Response 500 (@None TodoItem)) padded_form _ _ _ eq_refl)
    as (out' & Hs & Hr & _).
  eexists. exists out'. split; [reflexivity|]. split; [exact Hs|exact Hr].
Defined.

(** X12.  The screen loads and saves the same thing.  When mounting it
    requests an item, a save is a PUT to the URL the item was requested
    from; when mounting requests nothing (no id in the route, or the
    empty string), the spinner is switched off at once and a save is a
    POST to the collection. *)
Theorem X12_mount_and_save_agree `{Platform} todoId st0 st req st1 out :
  AddEditScreen.handleSave_begin todoId st = Await req st1 out ->
  match AddEditScreen.mount todoId st0 with
  | Await r s _ =>
      method r = GET /\ body r = None /\ s = st0 /\
      method req = PUT /\ url req = url r
  | Done s o =>
      requests o = [] /\ AddEditScreen.loading s = false /\
      method req = POST /\ url req = API_URL
  | Threw _ _ _ => False
  end.
Proof.
  intros Hb. unfold AddEditScreen.handleSave_begin in Hb.
  destruct (truthy (trim (AddEditScreen.title st))); simpl in Hb; [|discriminate].
  destruct (AddEditScreen.payload st) as [e|p]; [discriminate|].
  injection Hb as <- _ _.
  unfold AddEditScreen.mount, AddEditScreen.isEditing.
  destruct todoId as [i|]; simpl; [|done].
  destruct (truthy i); simpl; done.
Qed.

Lemma X12_mount_and_save_agree_witness :
  exists req,
    AddEditScreen.handleSave_begin (H := sample_host) (Some (lit "1")) padded_form
    = Await req (AddEditScreen.setIsSaving true padded_form) [] /\
    method req = PUT /\
    url req = AddEditScreen.item_url (lit "1").
Proof.
  eexists. split; [reflexivity|].
  pose proof (@X12_mount_and_save_agree sample_host (Some (lit "1"))
                AddEditScreen.initial padded_form _ _ _ eq_refl) as HX.
  simpl in HX. destruct HX as (_ & _ & _ & Hm & Hu). split; [exact Hm|exact Hu].
Defined.

(** X13.  An answer with an ok status whose body is not JSON is a failure
    for the two loaders, which read the body: each shows its alert and
    changes no data, exactly as when the request is rejected.  For a save
    and for a toggle, which do not read the body, it is a success like
    any other ok answer. *)
Theorem X13_ok_answer_without_json `{Platform} status :
  ok status = true ->
  (forall st,
     AddEditScreen.fetchTodoDetails_resume (Response status None) st
     = AddEditScreen.fetchTodoDetails_resume Rejected st) /\
  (forall st,
     HomeScreen.fetchTodos_resume (Response status None) st
     = HomeScreen.fetchTodos_resume Rejected st) /\
  (forall todoId st (data : TodoItem),
     AddEditScreen.handleSave_resume todoId (Response status (@None TodoItem)) st
     = AddEditScreen.handleSave_resume todoId (Response status (Some data)) st /\
     GoBack ∈ snd (AddEditScreen.handleSave_resume todoId
                     (Response status (@None TodoItem)) st)) /\
  (forall item v st,
     HomeScreen.handleToggleCompletion_resume item v
       (Response status (@None TodoItem)) st
     = (HomeScreen.setTodos (HomeScreen.mark item v (HomeScreen.todos st)) st, [])).
Proof.
  intros Hok. repeat split; simpl; rewrite ?Hok; try reflexivity.
  do 1 right. left.
Qed.

Lemma X13_ok_answer_without_json_witness :
  ok 204 = true /\
  HomeScreen.fetchTodos_resume (Response 204 None) two_items
  = HomeScreen.fetchTodos_resume Rejected two_items.
Proof.
  split; [reflexivity|].
  destruct (@X13_ok_answer_without_json sample_host 204 eq_refl) as (_ & Hl & _).
  apply Hl.
Defined.

(* ===================================================================== *)
(** ** The date picker *)
(* ===================================================================== *)

Lemma onChange_date os type sel st :
  DatePickerComponent.date (DatePickerComponent.onChange os type sel st)
  = match sel with Some d => Some d | None => DatePickerComponent.date st end /\
  DatePickerComponent.showPicker (DatePickerComponent.onChange os type sel st)
  = String.eqb os "ios".
Proof.
  unfold DatePickerComponent.onChange. destruct sel as [d|]; simpl.
  - done.
  - destruct (String.eqb type "dismissed" && String.eqb os "android");
      [done|]. rewrite andb_false_r. done.
Qed.

(** X14.  The picker can set the due date but not clear it: after any
    sequence of presses and picker events, on any platform and whatever
    the types of the events, the date is the one handed over by the last
    event that carried a date, and the date it had when no event carried
    one.  A form that has a due date keeps having one. *)
Theorem X14_picker_never_clears_date os evs : forall st,
  DatePickerComponent.date (DatePickerComponent.run os evs st)
  = DatePickerComponent.last_selected evs (DatePickerComponent.date st) /\
  (is_Some (DatePickerComponent.date st) ->
   is_Some (DatePickerComponent.date (DatePickerComponent.run os evs st))).
Proof.
  induction evs as [|ev evs IH]; intros st; [done|].
  unfold DatePickerComponent.run. simpl.
  fold (DatePickerComponent.run os evs (DatePickerComponent.step os ev st)).
  destruct (IH (DatePickerComponent.step os ev st)) as [IH1 IH2].
  destruct ev as [|type [d|]];
    cbn [DatePickerComponent.step DatePickerComponent.last_selected] in *.
  - split; [exact IH1|exact IH2].
  - destruct (onChange_date os type (Some d) st) as [Hd _].
    rewrite Hd in IH1, IH2. split; [exact IH1|]. intros _. apply IH2. by eexists.
  - destruct (onChange_date os type None st) as [Hd _].
    rewrite Hd in IH1, IH2. split; [exact IH1|exact IH2].
Qed.

Lemma X14_picker_never_clears_date_witness :
  let st := {| DatePickerComponent.showPicker := false;
               DatePickerComponent.date := Some (ValidDate 0) |} in
  let evs := [DatePickerComponent.Press;
              DatePickerComponent.Change "dismissed" None;
              DatePickerComponent.Change "set" None] in
  is_Some (DatePickerComponent.date st) /\
  is_Some (DatePickerComponent.date (DatePickerComponent.run "android" evs st)).
Proof.
  intros st evs.
  assert (Hs : is_Some (DatePickerComponent.date st)). { by eexists. }
  split; [exact Hs|].
  apply (X14_picker_never_clears_date "android" evs st). exact Hs.
Defined.

(* ===================================================================== *)
(** ** What the list screen shows *)
(* ===================================================================== *)




(* ===================================================================== *)
(** ** More on the timers of the search field *)
(* ===================================================================== *)

(** X16.  After an edit of the text and 300 ms or more without another
    event, the timer set by the edit can run: it calls [onSearch] with
    the new text, and it runs once, a second attempt calls nothing. *)
Theorem X16_quiet_edit_is_delivered st q ms :
  q <> SearchBar.query st ->
  (300 <= ms)%N ->
  let st1 := SearchBar.run [SearchBar.ChangeText q; SearchBar.Elapse ms] st in
  let i := SearchBar.next_id st in
  let '(st2, calls) := SearchBar.step (SearchBar.TimerFires i) st1 in
  calls = [q] /\
  SearchBar.query st2 = q /\
  SearchBar.step (SearchBar.TimerFires i) st2 = (st2, []).
Proof.
  intros Hq Hms. simpl.
  destruct (decide (q = SearchBar.query st)) as [E|_]; [done|]. simpl.
  rewrite lookup_insert_eq. simpl.
  assert (Hle : (SearchBar.now st + 300 <=? SearchBar.now st + Z.of_N ms) = true).
  { apply Z.leb_le. lia. }
  rewrite Hle. simpl. rewrite lookup_delete_eq. by repeat split.
Qed.

Lemma X16_quiet_edit_is_delivered_witness :
  lit "a" <> SearchBar.query (SearchBar.mount 0) /\
  let st1 := SearchBar.run [SearchBar.ChangeText (lit "a"); SearchBar.Elapse 300]
               (SearchBar.mount 0) in
  let '(st2, calls) := SearchBar.step (SearchBar.TimerFires 1) st1 in
  calls = [lit "a"] /\
  SearchBar.query st2 = lit "a" /\
  SearchBar.step (SearchBar.TimerFires 1) st2 = (st2, []).
Proof.
  split; [discriminate|].
  apply (X16_quiet_edit_is_delivered (SearchBar.mount 0) (lit "a") 300);
    [discriminate|reflexivity].
Defined.




(* ===================================================================== *)
(** ** Presses of the save button *)
(* ===================================================================== *)

Lemma one_save_step `{Platform} todoId ev scr :
  one_save scr -> one_save (fst (AddEditSession.step todoId ev scr)).
Proof.
  intros [Hlen Hsav].
  destruct ev as [s|s|d|b| |o]; simpl; try by split.
  - destruct (AddEditScreen.isSaving (AddEditSession.cells scr)) eqn:Es; simpl.
    + by split.
    + assert (Hnil : AddEditSession.inflight scr = []).
      { destruct (AddEditSession.inflight scr) as [|r l] eqn:E; [done|].
        specialize (Hsav ltac:(discriminate)). congruence. }
      destruct (AddEditScreen.handleSave_begin todoId (AddEditSession.cells scr))
        as [s out|e s out|req s out] eqn:Eb; simpl.
      * rewrite Hnil. split; simpl; [lia|done].
      * rewrite Hnil. split; simpl; [lia|done].
      * destruct (handleSave_begin_await _ _ _ _ _ Eb) as (_ & -> & -> & _).
        rewrite Hnil. split; simpl; [lia|done].
  - destruct (AddEditSession.inflight scr) as [|r rest] eqn:E; simpl.
    + split; [by rewrite E|by rewrite E].
    + simpl in Hlen. destruct rest; [|simpl in Hlen; lia].
      destruct (AddEditScreen.handleSave_resume todoId o (AddEditSession.cells scr))
        as [s out] eqn:Er. simpl. split; simpl; [lia|done].
Qed.

(** X18.  The save button cannot send a second request while one is
    waiting for its answer.  From a form with no save in flight, after
    any sequence of edits, presses of the button and answers: at most one
    save request is in flight, isSaving holds while it is, and a press
    made while isSaving holds has no effect at all. *)
Theorem X18_one_save_at_a_time `{Platform} todoId cells0 evs :
  let scr := fst (AddEditSession.run todoId evs
                    {| AddEditSession.cells := cells0;
                       AddEditSession.inflight := [] |}) in
  (length (AddEditSession.inflight scr) <= 1)%nat /\
  (AddEditSession.inflight scr <> [] ->
   AddEditScreen.isSaving (AddEditSession.cells scr) = true) /\
  (AddEditScreen.isSaving (AddEditSession.cells scr) = true ->
   AddEditSession.step todoId AddEditSession.OnPressSave scr = (scr, [])).
Proof.
  assert (Hrun : forall evs scr, one_save scr ->
                   one_save (fst (AddEditSession.run todoId evs scr))).
  { clear evs. induction evs as [|ev evs IH]; intros scr Hinv; [exact Hinv|].
    simpl. pose proof (one_save_step todoId ev scr Hinv) as H1.
    destruct (AddEditSession.step todoId ev scr) as [scr1 out1]. simpl in H1.
    specialize (IH scr1 H1).
    by destruct (AddEditSession.run todoId evs scr1) as [scr2 out2]. }
  intros scr.
  destruct (Hrun evs {| AddEditSession.cells := cells0;
                        AddEditSession.inflight := [] |}) as [Hlen Hsav].
  { split; simpl; [lia|done]. }
  split; [exact Hlen|]. split; [exact Hsav|].
  intros Hs. simpl. by rewrite Hs.
Qed.

Lemma X18_one_save_at_a_time_witness :
  let scr := fst (AddEditSession.run (H := sample_host) None impatient
                    AddEditSession.shown) in
  length (AddEditSession.inflight scr) = 1%nat /\
  length (requests (snd (AddEditSession.run (H := sample_host) None impatient
                           AddEditSession.shown))) = 1%nat /\
  AddEditSession.step (H := sample_host) None AddEditSession.OnPressSave scr
  = (scr, []).
Proof.
  intros scr. split; [reflexivity|]. split; [reflexivity|].
  destruct (@X18_one_save_at_a_time sample_host None
              (AddEditScreen.setLoading false AddEditScreen.initial) impatient)
    as (_ & _ & Hp).
  apply Hp. reflexivity.
Defined.
